(** * Watchdog stretch experiment (oppimistehtava2.ino)

    A shallow embedding of the reset-surviving state machine of the
    ESP32 sketch [oppimistehtava2.ino], and proofs of the properties its
    specification states about it.

    Modelling conventions.
    - [uint32_t] values are integers in [Z]; every arithmetic operation
      that can leave the range [0, 2^32) is wrapped with [u32].
    - The record [gRtc] lives in RTC memory and survives a reset; all
      other variables (globals and function-local statics) live in normal
      RAM and are re-initialised by every boot.
    - [millis()] and [esp_task_wdt_reset()] are answered by two oracles,
      indexed by the number of calls made so far during the current boot.
      [delay()] and all [Serial] output have no effect on program
      variables and are left out; so are the driver calls of
      [wdtEnable] and [wdtDisable], whose results the callers discard.
    - [hangUntilReset] never returns: the computation ends in the outcome
      [HangsUntilReset].  The busy-wait of [runDisableWindow] is followed
      for a bounded number of rounds ([fuel]). *)

From Stdlib Require Import String ZArith Lia List Bool.
Import ListNotations.
Local Open Scope Z_scope.

(** ** Machine integers *)

Definition u32 (x : Z) : Z := x mod 2 ^ 32.

Definition in_u32 (x : Z) : Prop := 0 <= x < 2 ^ 32.

(** ** Tuning knobs *)

Definition kWdtTimeoutSeconds     : Z := 5.
Definition kFeedIntervalMs        : Z := 1000.
Definition kDisableWindowMs       : Z := 30000.
Definition kStatusPrintIntervalMs : Z := 5000.
Definition kMinFeedCount          : Z := 6.

Definition kStretchStartMs        : Z := 1000.
Definition kStretchHoldMs         : Z := 8000.
Definition kCoarseStepMs          : Z := 500.
Definition kFineStepMs            : Z := 100.

(** ** Persistent state *)

Record RtcState : Type := mkRtc {
  magic            : Z;
  bootCount        : Z;
  phase            : Z;
  coarseIntervalMs : Z;
  coarseLastGoodMs : Z;
  coarseFailMs     : Z;
  fineIntervalMs   : Z;
  fineLastGoodMs   : Z;
  fineFailMs       : Z;
  finalLastGoodMs  : Z;
  finalFailMs      : Z
}.

Definition kRtcMagic : Z := 0xC0FFEE42.

Definition set_magic (v : Z) (r : RtcState) : RtcState :=
  mkRtc v (bootCount r) (phase r)
        (coarseIntervalMs r) (coarseLastGoodMs r) (coarseFailMs r)
        (fineIntervalMs r) (fineLastGoodMs r) (fineFailMs r)
        (finalLastGoodMs r) (finalFailMs r).

Definition set_bootCount (v : Z) (r : RtcState) : RtcState :=
  mkRtc (magic r) v (phase r)
        (coarseIntervalMs r) (coarseLastGoodMs r) (coarseFailMs r)
        (fineIntervalMs r) (fineLastGoodMs r) (fineFailMs r)
        (finalLastGoodMs r) (finalFailMs r).

Definition set_phase (v : Z) (r : RtcState) : RtcState :=
  mkRtc (magic r) (bootCount r) v
        (coarseIntervalMs r) (coarseLastGoodMs r) (coarseFailMs r)
        (fineIntervalMs r) (fineLastGoodMs r) (fineFailMs r)
        (finalLastGoodMs r) (finalFailMs r).

Definition set_coarseIntervalMs (v : Z) (r : RtcState) : RtcState :=
  mkRtc (magic r) (bootCount r) (phase r)
        v (coarseLastGoodMs r) (coarseFailMs r)
        (fineIntervalMs r) (fineLastGoodMs r) (fineFailMs r)
        (finalLastGoodMs r) (finalFailMs r).

Definition set_coarseLastGoodMs (v : Z) (r : RtcState) : RtcState :=
  mkRtc (magic r) (bootCount r) (phase r)
        (coarseIntervalMs r) v (coarseFailMs r)
        (fineIntervalMs r) (fineLastGoodMs r) (fineFailMs r)
        (finalLastGoodMs r) (finalFailMs r).

Definition set_coarseFailMs (v : Z) (r : RtcState) : RtcState :=
  mkRtc (magic r) (bootCount r) (phase r)
        (coarseIntervalMs r) (coarseLastGoodMs r) v
        (fineIntervalMs r) (fineLastGoodMs r) (fineFailMs r)
        (finalLastGoodMs r) (finalFailMs r).

Definition set_fineIntervalMs (v : Z) (r : RtcState) : RtcState :=
  mkRtc (magic r) (bootCount r) (phase r)
        (coarseIntervalMs r) (coarseLastGoodMs r) (coarseFailMs r)
        v (fineLastGoodMs r) (fineFailMs r)
        (finalLastGoodMs r) (finalFailMs r).

Definition set_fineLastGoodMs (v : Z) (r : RtcState) : RtcState :=
  mkRtc (magic r) (bootCount r) (phase r)
        (coarseIntervalMs r) (coarseLastGoodMs r) (coarseFailMs r)
        (fineIntervalMs r) v (fineFailMs r)
        (finalLastGoodMs r) (finalFailMs r).

Definition set_fineFailMs (v : Z) (r : RtcState) : RtcState :=
  mkRtc (magic r) (bootCount r) (phase r)
        (coarseIntervalMs r) (coarseLastGoodMs r) (coarseFailMs r)
        (fineIntervalMs r) (fineLastGoodMs r) v
        (finalLastGoodMs r) (finalFailMs r).

Definition set_finalLastGoodMs (v : Z) (r : RtcState) : RtcState :=
  mkRtc (magic r) (bootCount r) (phase r)
        (coarseIntervalMs r) (coarseLastGoodMs r) (coarseFailMs r)
        (fineIntervalMs r) (fineLastGoodMs r) (fineFailMs r)
        v (finalFailMs r).

Definition set_finalFailMs (v : Z) (r : RtcState) : RtcState :=
  mkRtc (magic r) (bootCount r) (phase r)
        (coarseIntervalMs r) (coarseLastGoodMs r) (coarseFailMs r)
        (fineIntervalMs r) (fineLastGoodMs r) (fineFailMs r)
        (finalLastGoodMs r) v.

(** Every field holds a [uint32_t]. *)
Definition rtc_in_range (r : RtcState) : Prop :=
  in_u32 (magic r) /\ in_u32 (bootCount r) /\ in_u32 (phase r) /\
  in_u32 (coarseIntervalMs r) /\ in_u32 (coarseLastGoodMs r) /\
  in_u32 (coarseFailMs r) /\
  in_u32 (fineIntervalMs r) /\ in_u32 (fineLastGoodMs r) /\
  in_u32 (fineFailMs r) /\
  in_u32 (finalLastGoodMs r) /\ in_u32 (finalFailMs r).

(** ** Phases *)

Inductive Phase : Type :=
| FeedWarmup
| ResetTest1
| ResetTest2
| Disabled30s
| FeedAfterOn
| StretchCoarse
| StretchFine
| Result.

(** [static_cast<uint32_t>(Phase::p)] *)
Definition phase_code (p : Phase) : Z :=
  match p with
  | FeedWarmup    => 0
  | ResetTest1    => 1
  | ResetTest2    => 2
  | Disabled30s   => 3
  | FeedAfterOn   => 4
  | StretchCoarse => 5
  | StretchFine   => 6
  | Result        => 7
  end.

(** [static_cast<Phase>(v)]: the named enumerator with value [v], or
    [None] when [v] names none of them. *)
Definition phase_cast (v : Z) : option Phase :=
  if v =? 0 then Some FeedWarmup
  else if v =? 1 then Some ResetTest1
  else if v =? 2 then Some ResetTest2
  else if v =? 3 then Some Disabled30s
  else if v =? 4 then Some FeedAfterOn
  else if v =? 5 then Some StretchCoarse
  else if v =? 6 then Some StretchFine
  else if v =? 7 then Some Result
  else None.

(** ** Reset reasons and driver error codes *)

Inductive esp_reset_reason_t : Type :=
| ESP_RST_UNKNOWN
| ESP_RST_POWERON
| ESP_RST_EXT
| ESP_RST_SW
| ESP_RST_PANIC
| ESP_RST_INT_WDT
| ESP_RST_TASK_WDT
| ESP_RST_WDT
| ESP_RST_DEEPSLEEP
| ESP_RST_BROWNOUT
| ESP_RST_SDIO.

Definition is_task_wdt (reason : esp_reset_reason_t) : bool :=
  match reason with
  | ESP_RST_TASK_WDT => true
  | _ => false
  end.

(** [esp_err_t] is an [int]; [ESP_OK] is zero. *)
Definition ESP_OK : Z := 0.

(** ** The machine: persistent record, RAM variables, oracle positions *)

Record Machine : Type := mkMachine {
  gRtc                : RtcState;
  (* runtime counters (normal RAM) *)
  gLastFeedMs         : Z;
  gFeedCount          : Z;
  (* statics of stretchStepLogic *)
  intervalStartMs     : Z;
  lastPrintedInterval : Z;
  lastHeartbeatMs     : Z;
  (* static of loop, case Result *)
  done                : bool;
  (* number of calls answered so far by each oracle *)
  millisCalls         : nat;
  feedCalls           : nat
}.

Definition set_gRtc (v : RtcState) (m : Machine) : Machine :=
  mkMachine v (gLastFeedMs m) (gFeedCount m) (intervalStartMs m)
            (lastPrintedInterval m) (lastHeartbeatMs m) (done m)
            (millisCalls m) (feedCalls m).

Definition set_gLastFeedMs (v : Z) (m : Machine) : Machine :=
  mkMachine (gRtc m) v (gFeedCount m) (intervalStartMs m)
            (lastPrintedInterval m) (lastHeartbeatMs m) (done m)
            (millisCalls m) (feedCalls m).

Definition set_gFeedCount (v : Z) (m : Machine) : Machine :=
  mkMachine (gRtc m) (gLastFeedMs m) v (intervalStartMs m)
            (lastPrintedInterval m) (lastHeartbeatMs m) (done m)
            (millisCalls m) (feedCalls m).

Definition set_intervalStartMs (v : Z) (m : Machine) : Machine :=
  mkMachine (gRtc m) (gLastFeedMs m) (gFeedCount m) v
            (lastPrintedInterval m) (lastHeartbeatMs m) (done m)
            (millisCalls m) (feedCalls m).

Definition set_lastPrintedInterval (v : Z) (m : Machine) : Machine :=
  mkMachine (gRtc m) (gLastFeedMs m) (gFeedCount m) (intervalStartMs m)
            v (lastHeartbeatMs m) (done m)
            (millisCalls m) (feedCalls m).

Definition set_lastHeartbeatMs (v : Z) (m : Machine) : Machine :=
  mkMachine (gRtc m) (gLastFeedMs m) (gFeedCount m) (intervalStartMs m)
            (lastPrintedInterval m) v (done m)
            (millisCalls m) (feedCalls m).

Definition set_done (v : bool) (m : Machine) : Machine :=
  mkMachine (gRtc m) (gLastFeedMs m) (gFeedCount m) (intervalStartMs m)
            (lastPrintedInterval m) (lastHeartbeatMs m) v
            (millisCalls m) (feedCalls m).

Definition set_millisCalls (v : nat) (m : Machine) : Machine :=
  mkMachine (gRtc m) (gLastFeedMs m) (gFeedCount m) (intervalStartMs m)
            (lastPrintedInterval m) (lastHeartbeatMs m) (done m)
            v (feedCalls m).

Definition set_feedCalls (v : nat) (m : Machine) : Machine :=
  mkMachine (gRtc m) (gLastFeedMs m) (gFeedCount m) (intervalStartMs m)
            (lastPrintedInterval m) (lastHeartbeatMs m) (done m)
            (millisCalls m) v.

(** The machine right after a reset: RTC memory is whatever it was, the
    RAM variables carry their static initialisers. *)
Definition power_up (r : RtcState) : Machine :=
  mkMachine r 0 0 0 0 0 false 0%nat 0%nat.

(** ** A monad for code that may hang *)

Inductive Outcome (A : Type) : Type :=
| Returns (a : A) (m : Machine)
| HangsUntilReset (m : Machine)
| OutOfFuel (m : Machine).

Arguments Returns {A} a m.
Arguments HangsUntilReset {A} m.
Arguments OutOfFuel {A} m.

Definition M (A : Type) : Type := Machine -> Outcome A.

Definition ret {A : Type} (a : A) : M A := fun m => Returns a m.

Definition bind {A B : Type} (c : M A) (k : A -> M B) : M B :=
  fun m =>
    match c m with
    | Returns a m' => k a m'
    | HangsUntilReset m' => HangsUntilReset m'
    | OutOfFuel m' => OutOfFuel m'
    end.

Notation "x <- c ;; k" := (bind c (fun x => k))
  (at level 61, c at next level, right associativity).
Notation "c ;; k" := (bind c (fun _ => k))
  (at level 61, right associativity).

Definition gets {A : Type} (f : Machine -> A) : M A :=
  fun m => Returns (f m) m.

Definition modify (f : Machine -> Machine) : M unit :=
  fun m => Returns tt (f m).

(** Read and write one field of [gRtc]. *)
Definition rd (f : RtcState -> Z) : M Z :=
  gets (fun m => f (gRtc m)).

Definition assign (setter : Z -> RtcState -> RtcState) (v : Z) : M unit :=
  modify (fun m => set_gRtc (setter v (gRtc m)) m).

(** The machine an outcome stops at: where a reset finds the program. *)
Definition machine_of {A : Type} (o : Outcome A) : Machine :=
  match o with
  | Returns _ m => m
  | HangsUntilReset m => m
  | OutOfFuel m => m
  end.

(** A [uint32_t&] parameter bound to a field of [gRtc]. *)
Record FieldRef : Type := mkRef {
  ref_get : RtcState -> Z;
  ref_set : Z -> RtcState -> RtcState
}.

Definition coarseIntervalRef : FieldRef :=
  mkRef coarseIntervalMs set_coarseIntervalMs.

Definition fineIntervalRef : FieldRef :=
  mkRef fineIntervalMs set_fineIntervalMs.

(** ** The program *)

Section Program.

(** [clk n] is what the [n]-th call of [millis()] of this boot reads,
    [wdt_reset n] what the [n]-th call of [esp_task_wdt_reset()]
    returns. *)
Variable clk : nat -> Z.
Variable wdt_reset : nat -> Z.

Definition millis : M Z :=
  fun m => Returns (u32 (clk (millisCalls m)))
                   (set_millisCalls (S (millisCalls m)) m).

Definition esp_task_wdt_reset : M Z :=
  fun m => Returns (wdt_reset (feedCalls m))
                   (set_feedCalls (S (feedCalls m)) m).

Definition rtcInitIfNeeded : M unit :=
  mg <- rd magic ;;
  if negb (mg =? kRtcMagic) then
    assign set_magic kRtcMagic ;;
    assign set_bootCount 0 ;;
    assign set_phase (phase_code FeedWarmup) ;;
    assign set_coarseIntervalMs kStretchStartMs ;;
    assign set_coarseLastGoodMs 0 ;;
    assign set_coarseFailMs 0 ;;
    assign set_fineIntervalMs 0 ;;
    assign set_fineLastGoodMs 0 ;;
    assign set_fineFailMs 0 ;;
    assign set_finalLastGoodMs 0 ;;
    assign set_finalFailMs 0
  else ret tt.

(** Driver and console only. *)
Definition wdtEnable : M unit := ret tt.
Definition wdtDisable : M unit := ret tt.
Definition printBootHeader : M unit := ret tt.

Definition wdtFeedIfDue (intervalMs : Z) : M unit :=
  now <- millis ;;
  last <- gets gLastFeedMs ;;
  if u32 (now - last) <? intervalMs then ret tt
  else
    err <- esp_task_wdt_reset ;;
    (if err =? ESP_OK then
       c <- gets gFeedCount ;;
       modify (set_gFeedCount (u32 (c + 1)))
     else ret tt) ;;
    modify (set_gLastFeedMs now).

Definition resetCountersForPhase : M unit :=
  modify (set_gFeedCount 0) ;;
  t <- millis ;;
  modify (set_gLastFeedMs t).

Definition advancePhaseOnWdtReset (reason : esp_reset_reason_t) : M unit :=
  if negb (is_task_wdt reason) then ret tt
  else
    p <- rd phase ;;
    match phase_cast p with
    | Some ResetTest1 => assign set_phase (phase_code ResetTest2)
    | Some ResetTest2 => assign set_phase (phase_code Disabled30s)
    | Some StretchCoarse =>
        ci <- rd coarseIntervalMs ;;
        assign set_coarseFailMs ci ;;
        ci <- rd coarseIntervalMs ;;
        assign set_coarseLastGoodMs
               (if ci >? kCoarseStepMs then u32 (ci - kCoarseStepMs) else 0) ;;
        lg <- rd coarseLastGoodMs ;;
        assign set_fineIntervalMs lg ;;
        assign set_fineLastGoodMs 0 ;;
        assign set_fineFailMs 0 ;;
        assign set_phase (phase_code StretchFine)
    | Some StretchFine =>
        fi <- rd fineIntervalMs ;;
        assign set_fineFailMs fi ;;
        fi <- rd fineIntervalMs ;;
        assign set_fineLastGoodMs
               (if fi >? kFineStepMs then u32 (fi - kFineStepMs) else 0) ;;
        lg <- rd fineLastGoodMs ;;
        assign set_finalLastGoodMs lg ;;
        ff <- rd fineFailMs ;;
        assign set_finalFailMs ff ;;
        assign set_phase (phase_code Result)
    | _ => ret tt
    end.

Definition hangUntilReset : M unit :=
  fun m => HangsUntilReset m.

(** The [while] of [runDisableWindow], followed for [fuel] rounds. *)
Fixpoint disableWindowWait (fuel : nat) (start lastPrint : Z) : M unit :=
  match fuel with
  | O => fun m => OutOfFuel m
  | S fuel' =>
      t <- millis ;;
      if u32 (t - start) <? kDisableWindowMs then
        t' <- millis ;;
        let elapsed := u32 (t' - start) in
        disableWindowWait fuel' start
          (if u32 (elapsed - lastPrint) >=? kStatusPrintIntervalMs
           then elapsed else lastPrint)
      else ret tt
  end.

Definition runDisableWindow (fuel : nat) : M unit :=
  wdtDisable ;;
  start <- millis ;;
  disableWindowWait fuel start 0 ;;
  wdtEnable.

Definition stretchStepLogic (intervalMs : FieldRef) (stepMs : Z) : M unit :=
  iv <- rd (ref_get intervalMs) ;;
  wdtFeedIfDue iv ;;
  s <- gets intervalStartMs ;;
  (if s =? 0 then
     t <- millis ;;
     modify (set_intervalStartMs t)
   else ret tt) ;;
  iv <- rd (ref_get intervalMs) ;;
  lp <- gets lastPrintedInterval ;;
  (if negb (iv =? lp) then modify (set_lastPrintedInterval iv)
   else ret tt) ;;
  t <- millis ;;
  s <- gets intervalStartMs ;;
  (if u32 (t - s) >=? kStretchHoldMs then
     iv <- rd (ref_get intervalMs) ;;
     assign (ref_set intervalMs) (u32 (iv + stepMs)) ;;
     modify (set_intervalStartMs 0)
   else ret tt) ;;
  t <- millis ;;
  hb <- gets lastHeartbeatMs ;;
  if u32 (t - hb) >=? kStatusPrintIntervalMs then
    t' <- millis ;;
    modify (set_lastHeartbeatMs t')
  else ret tt.

Definition setup (reason : esp_reset_reason_t) : M unit :=
  rtcInitIfNeeded ;;
  bc <- rd bootCount ;;
  assign set_bootCount (u32 (bc + 1)) ;;
  advancePhaseOnWdtReset reason ;;
  printBootHeader ;;
  wdtEnable ;;
  resetCountersForPhase.

Definition loop (fuel : nat) : M unit :=
  p <- rd phase ;;
  match phase_cast p with
  | Some FeedWarmup =>
      wdtFeedIfDue kFeedIntervalMs ;;
      c <- gets gFeedCount ;;
      if c >=? kMinFeedCount then
        assign set_phase (phase_code ResetTest1) ;;
        resetCountersForPhase
      else ret tt
  | Some ResetTest1 => hangUntilReset
  | Some ResetTest2 => hangUntilReset
  | Some Disabled30s =>
      runDisableWindow fuel ;;
      assign set_phase (phase_code FeedAfterOn) ;;
      resetCountersForPhase
  | Some FeedAfterOn =>
      wdtFeedIfDue kFeedIntervalMs ;;
      c <- gets gFeedCount ;;
      if c >=? kMinFeedCount then
        assign set_phase (phase_code StretchCoarse) ;;
        assign set_coarseIntervalMs kStretchStartMs ;;
        assign set_coarseLastGoodMs 0 ;;
        assign set_coarseFailMs 0 ;;
        assign set_fineIntervalMs 0 ;;
        assign set_fineLastGoodMs 0 ;;
        assign set_fineFailMs 0 ;;
        assign set_finalLastGoodMs 0 ;;
        assign set_finalFailMs 0 ;;
        resetCountersForPhase
      else ret tt
  | Some StretchCoarse =>
      stretchStepLogic coarseIntervalRef kCoarseStepMs
  | Some StretchFine =>
      fi <- rd fineIntervalMs ;;
      (if fi =? 0 then
         lg <- rd coarseLastGoodMs ;;
         assign set_fineIntervalMs lg
       else ret tt) ;;
      stretchStepLogic fineIntervalRef kFineStepMs
  | Some Result =>
      d <- gets done ;;
      if negb d then
        wdtDisable ;;
        modify (set_done true)
      else ret tt
  | None =>
      assign set_phase (phase_code FeedWarmup) ;;
      resetCountersForPhase
  end.

(** [n] iterations of [loop()], as the Arduino core calls it. *)
Fixpoint run (fuel : nat) (n : nat) : M unit :=
  match n with
  | O => ret tt
  | S n' => loop fuel ;; run fuel n'
  end.

(** One boot: [setup()] once, then [loop()] again and again. *)
Definition boot (reason : esp_reset_reason_t) (fuel n : nat)
                (r : RtcState) : Outcome unit :=
  (setup reason ;; run fuel n) (power_up r).

End Program.

(** ** Sequences of boots *)

(** What one boot is given from outside: the reason of the reset that
    started it, its two oracles, and how long it runs before the next
    reset strikes ([boot_iters] iterations of [loop], the disable window
    followed for [boot_fuel] rounds). *)
Record BootEnv : Type := mkBootEnv {
  boot_reason : esp_reset_reason_t;
  boot_clk    : nat -> Z;
  boot_wdt    : nat -> Z;
  boot_fuel   : nat;
  boot_iters  : nat
}.

(** The persistent record the next reset finds. *)
Definition rtc_after_boot (b : BootEnv) (r : RtcState) : RtcState :=
  gRtc (machine_of
          (boot (boot_clk b) (boot_wdt b) (boot_reason b)
                (boot_fuel b) (boot_iters b) r)).

Definition boots (bs : list BootEnv) (r : RtcState) : RtcState :=
  fold_left (fun r b => rtc_after_boot b r) bs r.

(** ** Vocabulary of the statements *)

(** [c] relates the machine it starts on to the machine it stops at,
    however it stops. *)
Definition preserves {A : Type} (R : Machine -> Machine -> Prop)
                     (c : M A) : Prop :=
  forall m, R m (machine_of (c m)).

(** [c] always returns, and relates the machine it starts on to the one it
    returns. *)
Definition returns_with {A : Type} (R : Machine -> Machine -> Prop)
                        (c : M A) : Prop :=
  forall m, exists a m', c m = Returns a m' /\ R m m'.

(** The marker and the boot counter are untouched. *)
Definition same_identity (m m' : Machine) : Prop :=
  magic (gRtc m') = magic (gRtc m) /\
  bootCount (gRtc m') = bootCount (gRtc m).

(** One boot counted: the marker is in place and the counter is one more
    (modulo 2^32) than the valid record held, or 1 after a fresh start. *)
Definition boot_counted (m m' : Machine) : Prop :=
  magic (gRtc m') = kRtcMagic /\
  bootCount (gRtc m') =
  u32 ((if magic (gRtc m) =? kRtcMagic then bootCount (gRtc m) else 0) + 1).

(** The feed counter is below the threshold whenever the stored phase is
    one of the two that count feeds. *)
Definition feed_count_ok (m : Machine) : Prop :=
  phase (gRtc m) = phase_code FeedWarmup \/
  phase (gRtc m) = phase_code FeedAfterOn ->
  0 <= gFeedCount m < kMinFeedCount.

(** The value of the feed counter once this iteration's feed attempt, at
    the fixed feed interval, is over. *)
Definition countAfterFeed (clk wdt_reset : nat -> Z) (m : Machine) : Z :=
  gFeedCount (machine_of (wdtFeedIfDue clk wdt_reset kFeedIntervalMs m)).

(** Everything in the persistent record but the phase is untouched. *)
Definition same_search (r r' : RtcState) : Prop :=
  r' = set_phase (phase r') r.

(** For how long [stretchStepLogic], entered on [m], finds the current
    interval held: it reads the clock once for the feed, once more to start
    the hold timer when that is not running ([intervalStartMs] is 0), and
    then once to measure. *)
Definition heldMs (clk : nat -> Z) (m : Machine) : Z :=
  if intervalStartMs m =? 0
  then u32 (u32 (clk (S (S (millisCalls m)))) - u32 (clk (S (millisCalls m))))
  else u32 (u32 (clk (S (millisCalls m))) - intervalStartMs m).

(** ** Sample inputs *)

(** RTC memory after power loss, here all zero: the marker is wrong. *)
Definition fresh_rtc : RtcState := mkRtc 0 0 0 0 0 0 0 0 0 0 0.

(** A boot that is reset again before its first [loop] iteration. *)
Definition quiet_boot : BootEnv :=
  mkBootEnv ESP_RST_POWERON (fun _ => 0) (fun _ => ESP_OK) 0%nat 0%nat.

(** A clock that advances one second from each reading to the next. *)
Definition second_clock (n : nat) : Z := 1000 * Z.of_nat n.

(** A driver whose every call succeeds. *)
Definition feed_succeeds (n : nat) : Z := ESP_OK.

(** The record as the step from FeedAfterOn to StretchCoarse writes it,
    here during the fourth boot. *)
Definition coarse_entry_rtc : RtcState :=
  mkRtc kRtcMagic 4 (phase_code StretchCoarse) kStretchStartMs
        0 0 0 0 0 0 0.

(** A clock that advances eight seconds from each reading to the next. *)
Definition hold_clock (n : nat) : Z := 8000 * Z.of_nat n.

(** A driver whose every call fails with [ESP_ERR_INVALID_STATE]. *)
Definition feed_fails (n : nat) : Z := 0x103.

(** A valid record found in StretchCoarse with a 5500 ms probe. *)
Definition coarse_probe_rtc : RtcState :=
  mkRtc kRtcMagic 4 (phase_code StretchCoarse) 5500 0 0 0 0 0 0 0.

(** A valid record found in StretchFine with a 5300 ms probe. *)
Definition fine_probe_rtc : RtcState :=
  mkRtc kRtcMagic 5 (phase_code StretchFine) 5500 5000 5500 5300 0 0 0 0.

(** A valid record whose phase names no enumerator. *)
Definition corrupt_phase_rtc : RtcState :=
  mkRtc kRtcMagic 2 9 1000 0 0 0 0 0 0 0.

(** ** Console labels *)

Definition resetReasonToString (reason : esp_reset_reason_t) : string :=
  match reason with
  | ESP_RST_POWERON   => "POWERON"
  | ESP_RST_EXT       => "EXT (external reset pin)"
  | ESP_RST_SW        => "SW (software reset)"
  | ESP_RST_PANIC     => "PANIC (abort/panic)"
  | ESP_RST_INT_WDT   => "INT_WDT (interrupt watchdog)"
  | ESP_RST_TASK_WDT  => "TASK_WDT (task watchdog)"
  | ESP_RST_WDT       => "WDT (other watchdog)"
  | ESP_RST_DEEPSLEEP => "DEEPSLEEP"
  | ESP_RST_BROWNOUT  => "BROWNOUT"
  | ESP_RST_SDIO      => "SDIO"
  | _                 => "UNKNOWN"
  end%string.

(** ** Vocabulary of the further statements *)

(** On a valid record in a named phase, the marker stays and the phase
    moves forward only. *)
Definition phase_advances (m m' : Machine) : Prop :=
  magic (gRtc m) = kRtcMagic ->
  0 <= phase (gRtc m) <= 7 ->
  magic (gRtc m') = kRtcMagic /\
  phase (gRtc m) <= phase (gRtc m') <= 7.

(** On a valid record in phase Result, nothing but the boot counter
    changes. *)
Definition result_kept (m m' : Machine) : Prop :=
  magic (gRtc m) = kRtcMagic ->
  phase (gRtc m) = phase_code Result ->
  gRtc m' = set_bootCount (bootCount (gRtc m')) (gRtc m).

(** The feed counter does not exceed the number of driver calls made. *)
Definition feeds_backed (m : Machine) : Prop :=
  0 <= gFeedCount m <= Z.of_nat (feedCalls m).

Definition keeps_feeds_backed (m m' : Machine) : Prop :=
  feeds_backed m -> feeds_backed m'.

(** The interval [loop] probes with in StretchFine: the stored one, or
    the coarse last-good value when none is stored. *)
Definition fineSeed (r : RtcState) : Z :=
  if fineIntervalMs r =? 0 then coarseLastGoodMs r else fineIntervalMs r.

(** All that one iteration of [loop] can do to the persistent record. *)
Definition loop_effect (r r' : RtcState) : Prop :=
  r' = r \/
  (phase r = phase_code FeedWarmup /\
   r' = set_phase (phase_code ResetTest1) r) \/
  (phase r = phase_code Disabled30s /\
   r' = set_phase (phase_code FeedAfterOn) r) \/
  (phase r = phase_code FeedAfterOn /\
   r' = mkRtc (magic r) (bootCount r) (phase_code StretchCoarse)
              kStretchStartMs 0 0 0 0 0 0 0) \/
  (phase r = phase_code StretchCoarse /\
   exists v, r' = set_coarseIntervalMs v r) \/
  (phase r = phase_code StretchFine /\
   exists v, r' = set_fineIntervalMs v r) \/
  (~ (0 <= phase r <= 7) /\
   r' = set_phase (phase_code FeedWarmup) r).

(** The stored measurements: each is as it was, or cleared. *)
Definition results_kept_or_cleared (m m' : Machine) : Prop :=
  (coarseLastGoodMs (gRtc m') = coarseLastGoodMs (gRtc m) \/
   coarseLastGoodMs (gRtc m') = 0) /\
  (coarseFailMs (gRtc m') = coarseFailMs (gRtc m) \/
   coarseFailMs (gRtc m') = 0) /\
  (fineLastGoodMs (gRtc m') = fineLastGoodMs (gRtc m) \/
   fineLastGoodMs (gRtc m') = 0) /\
  (fineFailMs (gRtc m') = fineFailMs (gRtc m) \/
   fineFailMs (gRtc m') = 0) /\
  (finalLastGoodMs (gRtc m') = finalLastGoodMs (gRtc m) \/
   finalLastGoodMs (gRtc m') = 0) /\
  (finalFailMs (gRtc m') = finalFailMs (gRtc m) \/
   finalFailMs (gRtc m') = 0).

(** A valid record found in FeedAfterOn with earlier search data. *)
Definition post_enable_rtc : RtcState :=
  mkRtc kRtcMagic 3 (phase_code FeedAfterOn) 7000 6500 7000 6800 6700 6800
        6700 6800.

(** A valid record found in Disabled30s. *)
Definition disabled_rtc : RtcState :=
  mkRtc kRtcMagic 3 (phase_code Disabled30s) 1000 0 0 0 0 0 0 0.

(** A valid record holding a stored result. *)
Definition result_rtc : RtcState :=
  mkRtc kRtcMagic 6 (phase_code Result) 5500 5000 5500 5300 5200 5300
        5200 5300.

(** * Properties *)

(** ** Tactics and basic facts *)

(** Runs the straight-line part of a monadic computation on a machine
    given by its fields. *)
Ltac mrun :=
  cbv [bind ret gets modify rd assign millis esp_task_wdt_reset
       hangUntilReset wdtEnable wdtDisable printBootHeader machine_of
       ref_get ref_set coarseIntervalRef fineIntervalRef
       set_gRtc set_gLastFeedMs set_gFeedCount set_intervalStartMs
       set_lastPrintedInterval set_lastHeartbeatMs set_done
       set_millisCalls set_feedCalls
       gRtc gLastFeedMs gFeedCount intervalStartMs lastPrintedInterval
       lastHeartbeatMs done millisCalls feedCalls
       set_magic set_bootCount set_phase set_coarseIntervalMs
       set_coarseLastGoodMs set_coarseFailMs set_fineIntervalMs
       set_fineLastGoodMs set_fineFailMs set_finalLastGoodMs
       set_finalFailMs
       magic bootCount phase coarseIntervalMs coarseLastGoodMs
       coarseFailMs fineIntervalMs fineLastGoodMs fineFailMs
       finalLastGoodMs finalFailMs
       power_up negb is_task_wdt].

Ltac mrun_in H :=
  cbv [bind ret gets modify rd assign millis esp_task_wdt_reset
       hangUntilReset wdtEnable wdtDisable printBootHeader machine_of
       ref_get ref_set coarseIntervalRef fineIntervalRef
       set_gRtc set_gLastFeedMs set_gFeedCount set_intervalStartMs
       set_lastPrintedInterval set_lastHeartbeatMs set_done
       set_millisCalls set_feedCalls
       gRtc gLastFeedMs gFeedCount intervalStartMs lastPrintedInterval
       lastHeartbeatMs done millisCalls feedCalls
       set_magic set_bootCount set_phase set_coarseIntervalMs
       set_coarseLastGoodMs set_coarseFailMs set_fineIntervalMs
       set_fineLastGoodMs set_fineFailMs set_finalLastGoodMs
       set_finalFailMs
       magic bootCount phase coarseIntervalMs coarseLastGoodMs
       coarseFailMs fineIntervalMs fineLastGoodMs fineFailMs
       finalLastGoodMs finalFailMs
       power_up negb is_task_wdt] in H.

Ltac open_machine m :=
  let r := fresh "r" in
  destruct m as [r ? ? ? ? ? ? ? ?]; destruct r.

Lemma u32_range (x : Z) : in_u32 (u32 x).
Proof. unfold in_u32, u32. apply Z.mod_pos_bound. reflexivity. Qed.

Lemma u32_small (x : Z) : in_u32 x -> u32 x = x.
Proof. unfold in_u32, u32. intros H. apply Z.mod_small. exact H. Qed.

Lemma phase_cast_code (p : Phase) : phase_cast (phase_code p) = Some p.
Proof. destruct p; reflexivity. Qed.

Lemma phase_cast_Some (v : Z) (p : Phase) :
  phase_cast v = Some p -> v = phase_code p.
Proof.
  unfold phase_cast.
  repeat match goal with
         | |- context [?a =? ?b] => destruct (Z.eqb_spec a b)
         end;
    intros H; inversion H; subst; reflexivity.
Qed.

Lemma phase_cast_None (v : Z) :
  phase_cast v = None <-> ~ (0 <= v <= 7).
Proof.
  unfold phase_cast.
  repeat match goal with
         | |- context [?a =? ?b] => destruct (Z.eqb_spec a b)
         end;
    split; intros H; try discriminate; try reflexivity; try lia.
Qed.

Section Properties.

Variable clk : nat -> Z.
Variable wdt_reset : nat -> Z.

(** *** Phase advancement on a forced reset *)

(** C1.  A task-watchdog reset found in phase StretchCoarse records the
    probed interval X as [coarseFailMs], [max 0 (X - 500)] as
    [coarseLastGoodMs], seeds the fine search with that value and zeroes
    [fineLastGoodMs] and [fineFailMs], and moves to StretchFine; nothing
    else changes. *)
Theorem advance_coarse_to_fine (m : Machine) :
  in_u32 (coarseIntervalMs (gRtc m)) ->
  phase (gRtc m) = phase_code StretchCoarse ->
  let X := coarseIntervalMs (gRtc m) in
  advancePhaseOnWdtReset ESP_RST_TASK_WDT m =
  Returns tt
    (set_gRtc
       (mkRtc (magic (gRtc m)) (bootCount (gRtc m))
              (phase_code StretchFine)
              X (Z.max 0 (X - 500)) X
              (Z.max 0 (X - 500)) 0 0
              (finalLastGoodMs (gRtc m)) (finalFailMs (gRtc m)))
       m).
Proof.
  open_machine m. intros HX Hp. unfold advancePhaseOnWdtReset.
  mrun_in HX. mrun_in Hp. mrun. rewrite Hp. cbn [phase_code]. change (phase_cast 5) with (Some StretchCoarse).
  mrun. unfold kCoarseStepMs.
  destruct (Z.gtb_spec coarseIntervalMs0 500) as [Hgt | Hle].
  - rewrite u32_small by (unfold in_u32 in *; lia).
    rewrite Z.max_r by lia. reflexivity.
  - rewrite Z.max_l by lia. reflexivity.
Qed.

(** C2.  A task-watchdog reset found in phase StretchFine records the
    probed interval Y as [fineFailMs], [max 0 (Y - 100)] as
    [fineLastGoodMs], copies both into the final result pair, and moves
    to Result; nothing else changes. *)
Theorem advance_fine_to_result (m : Machine) :
  in_u32 (fineIntervalMs (gRtc m)) ->
  phase (gRtc m) = phase_code StretchFine ->
  let Y := fineIntervalMs (gRtc m) in
  advancePhaseOnWdtReset ESP_RST_TASK_WDT m =
  Returns tt
    (set_gRtc
       (mkRtc (magic (gRtc m)) (bootCount (gRtc m))
              (phase_code Result)
              (coarseIntervalMs (gRtc m)) (coarseLastGoodMs (gRtc m))
              (coarseFailMs (gRtc m))
              Y (Z.max 0 (Y - 100)) Y
              (Z.max 0 (Y - 100)) Y)
       m).
Proof.
  open_machine m. intros HY Hp. unfold advancePhaseOnWdtReset.
  mrun_in HY. mrun_in Hp. mrun. rewrite Hp. cbn [phase_code]. change (phase_cast 6) with (Some StretchFine).
  mrun. unfold kFineStepMs.
  destruct (Z.gtb_spec fineIntervalMs0 100) as [Hgt | Hle].
  - rewrite u32_small by (unfold in_u32 in *; lia).
    rewrite Z.max_r by lia. reflexivity.
  - rewrite Z.max_l by lia. reflexivity.
Qed.

(** C3.  [advancePhaseOnWdtReset] leaves the whole machine, and so the
    whole persistent record, as it found it whenever the reset reason is
    not the task watchdog, and also for a task-watchdog reset found in a
    phase other than ResetTest1, ResetTest2, StretchCoarse and
    StretchFine (a value naming no phase included). *)
Theorem advance_frame (reason : esp_reset_reason_t) (m : Machine) :
  reason <> ESP_RST_TASK_WDT \/
  (phase (gRtc m) <> phase_code ResetTest1 /\
   phase (gRtc m) <> phase_code ResetTest2 /\
   phase (gRtc m) <> phase_code StretchCoarse /\
   phase (gRtc m) <> phase_code StretchFine) ->
  advancePhaseOnWdtReset reason m = Returns tt m.
Proof.
  intros H. unfold advancePhaseOnWdtReset.
  destruct reason; try reflexivity.
  destruct H as [H | (H1 & H2 & H5 & H6)]; [congruence |].
  cbn [is_task_wdt negb]. unfold bind at 1. unfold rd, gets.
  destruct (phase_cast (phase (gRtc m))) as [p |] eqn:Hc; [| reflexivity].
  apply phase_cast_Some in Hc.
  destruct p; try reflexivity; contradiction.
Qed.

(** *** Initialisation of the persistent record *)

(** C4.  [rtcInitIfNeeded] is idempotent: running it twice gives what
    running it once gives, and on a record whose marker already is
    [kRtcMagic] it changes nothing at all. *)
Theorem rtcInitIfNeeded_idempotent (m : Machine) :
  (rtcInitIfNeeded ;; rtcInitIfNeeded) m = rtcInitIfNeeded m /\
  (magic (gRtc m) = kRtcMagic -> rtcInitIfNeeded m = Returns tt m).
Proof.
  open_machine m. unfold rtcInitIfNeeded. mrun.
  destruct (Z.eqb_spec magic0 kRtcMagic) as [He | Hne]; mrun.
  - destruct (Z.eqb_spec magic0 kRtcMagic) as [_ | Hne]; [| contradiction].
    mrun. split; reflexivity.
  - rewrite Z.eqb_refl. mrun. split; [reflexivity | contradiction].
Qed.

(** *** Feeding *)

(** C10.  When a feed is due and [esp_task_wdt_reset] fails, the feed
    counter keeps its value while [gLastFeedMs] takes the current time;
    the next call therefore asks the driver again only once a full
    interval has passed since this failed attempt. *)
Theorem failed_feed_not_counted (intervalMs : Z) (m : Machine) :
  let now := u32 (clk (millisCalls m)) in
  intervalMs <= u32 (now - gLastFeedMs m) ->
  wdt_reset (feedCalls m) <> ESP_OK ->
  let m' := set_gLastFeedMs now
              (set_feedCalls (S (feedCalls m))
                 (set_millisCalls (S (millisCalls m)) m)) in
  wdtFeedIfDue clk wdt_reset intervalMs m = Returns tt m' /\
  gFeedCount m' = gFeedCount m /\
  gLastFeedMs m' = now /\
  let now' := u32 (clk (millisCalls m')) in
  (u32 (now' - now) < intervalMs ->
   wdtFeedIfDue clk wdt_reset intervalMs m' =
   Returns tt (set_millisCalls (S (millisCalls m')) m')) /\
  (intervalMs <= u32 (now' - now) ->
   feedCalls (machine_of (wdtFeedIfDue clk wdt_reset intervalMs m')) =
   S (feedCalls m')).
Proof.
  open_machine m. intros now Hdue Herr m'. subst now m'.
  mrun_in Hdue. mrun_in Herr. unfold wdtFeedIfDue. mrun.
  destruct (Z.ltb_spec (u32 (u32 (clk millisCalls0) - gLastFeedMs0))
                       intervalMs) as [Hlt | _]; [lia |].
  mrun.
  destruct (Z.eqb_spec (wdt_reset feedCalls0) ESP_OK) as [He | _];
    [contradiction |].
  mrun. repeat split.
  - intros Hnot.
    destruct (Z.ltb_spec
                (u32 (u32 (clk (S millisCalls0)) - u32 (clk millisCalls0)))
                intervalMs) as [_ | Hge]; [reflexivity | lia].
  - intros Hdue'.
    destruct (Z.ltb_spec
                (u32 (u32 (clk (S millisCalls0)) - u32 (clk millisCalls0)))
                intervalMs) as [Hlt | _]; [lia |].
    mrun.
    destruct (wdt_reset (S feedCalls0) =? ESP_OK); reflexivity.
Qed.

(** *** The main loop on a corrupt phase *)

(** C8.  When [gRtc.phase] holds a value outside 0..7, one iteration of
    [loop] stores FeedWarmup, sets the feed counter to 0 and restarts the
    feed timer at the current time; it changes nothing else. *)
Theorem corrupt_phase_recovery (fuel : nat) (m : Machine) :
  ~ (0 <= phase (gRtc m) <= 7) ->
  loop clk wdt_reset fuel m =
  Returns tt
    (set_gLastFeedMs (u32 (clk (millisCalls m)))
       (set_millisCalls (S (millisCalls m))
          (set_gFeedCount 0
             (set_gRtc (set_phase (phase_code FeedWarmup) (gRtc m)) m)))).
Proof.
  intros Hbad. apply phase_cast_None in Hbad.
  unfold loop. unfold bind at 1. unfold rd, gets. rewrite Hbad.
  open_machine m. unfold resetCountersForPhase. mrun. reflexivity.
Qed.

End Properties.

(** ** The statements above on sample inputs *)

Lemma advance_coarse_to_fine_witness :
  advancePhaseOnWdtReset ESP_RST_TASK_WDT (power_up coarse_probe_rtc) =
  Returns tt
    (power_up
       (mkRtc kRtcMagic 4 (phase_code StretchFine)
              5500 5000 5500 5000 0 0 0 0)).
Proof.
  apply (advance_coarse_to_fine (power_up coarse_probe_rtc)).
  - unfold in_u32. vm_compute. split; [discriminate | reflexivity].
  - reflexivity.
Defined.

Lemma advance_fine_to_result_witness :
  advancePhaseOnWdtReset ESP_RST_TASK_WDT (power_up fine_probe_rtc) =
  Returns tt
    (power_up
       (mkRtc kRtcMagic 5 (phase_code Result)
              5500 5000 5500 5300 5200 5300 5200 5300)).
Proof.
  apply (advance_fine_to_result (power_up fine_probe_rtc)).
  - unfold in_u32. vm_compute. split; [discriminate | reflexivity].
  - reflexivity.
Defined.

Lemma advance_frame_witness :
  advancePhaseOnWdtReset ESP_RST_POWERON (power_up coarse_probe_rtc) =
  Returns tt (power_up coarse_probe_rtc) /\
  advancePhaseOnWdtReset ESP_RST_TASK_WDT (power_up corrupt_phase_rtc) =
  Returns tt (power_up corrupt_phase_rtc).
Proof.
  split.
  - apply (advance_frame ESP_RST_POWERON (power_up coarse_probe_rtc)).
    left. discriminate.
  - apply (advance_frame ESP_RST_TASK_WDT (power_up corrupt_phase_rtc)).
    right. vm_compute. repeat split; discriminate.
Defined.

Lemma rtcInitIfNeeded_idempotent_witness :
  rtcInitIfNeeded (power_up fine_probe_rtc) =
  Returns tt (power_up fine_probe_rtc).
Proof.
  apply (proj2 (rtcInitIfNeeded_idempotent (power_up fine_probe_rtc))).
  reflexivity.
Defined.

Lemma failed_feed_not_counted_witness :
  wdtFeedIfDue second_clock feed_fails kFeedIntervalMs
               (mkMachine coarse_probe_rtc 0 3 0 0 0 false 1%nat 0%nat) =
  Returns tt (mkMachine coarse_probe_rtc 1000 3 0 0 0 false 2%nat 1%nat).
Proof.
  refine (proj1 (failed_feed_not_counted
                   second_clock feed_fails kFeedIntervalMs
                   (mkMachine coarse_probe_rtc 0 3 0 0 0 false 1%nat 0%nat)
                   _ _)).
  - vm_compute. discriminate.
  - vm_compute. discriminate.
Defined.

Lemma corrupt_phase_recovery_witness :
  loop second_clock feed_succeeds 0
       (mkMachine corrupt_phase_rtc 0 3 0 0 0 false 1%nat 0%nat) =
  Returns tt
    (mkMachine (set_phase (phase_code FeedWarmup) corrupt_phase_rtc)
               1000 0 0 0 0 false 2%nat 0%nat).
Proof.
  apply (corrupt_phase_recovery
           second_clock feed_succeeds 0
           (mkMachine corrupt_phase_rtc 0 3 0 0 0 false 1%nat 0%nat)).
  vm_compute. intros [_ H]. apply H. reflexivity.
Defined.

(** ** Composing frame facts *)

Section Frame.

Variable R : Machine -> Machine -> Prop.
Hypothesis R_refl : forall m, R m m.
Hypothesis R_trans : forall m1 m2 m3, R m1 m2 -> R m2 m3 -> R m1 m3.

Lemma preserves_ret {A : Type} (a : A) : preserves R (ret a).
Proof. intros m. apply R_refl. Qed.

Lemma preserves_gets {A : Type} (f : Machine -> A) : preserves R (gets f).
Proof. intros m. apply R_refl. Qed.

Lemma preserves_hang : preserves R hangUntilReset.
Proof. intros m. apply R_refl. Qed.

Lemma preserves_modify (f : Machine -> Machine) :
  (forall m, R m (f m)) -> preserves R (modify f).
Proof. intros H m. apply H. Qed.

Lemma preserves_bind {A B : Type} (c : M A) (k : A -> M B) :
  preserves R c -> (forall a, preserves R (k a)) -> preserves R (bind c k).
Proof.
  intros Hc Hk m. unfold bind. specialize (Hc m).
  destruct (c m) as [a m' | m' | m']; cbn [machine_of] in *;
    [| exact Hc | exact Hc].
  apply R_trans with m'; [exact Hc | apply Hk].
Qed.

Lemma returns_ret {A : Type} (a : A) : returns_with R (ret a).
Proof. intros m. exists a, m. split; [reflexivity | apply R_refl]. Qed.

Lemma returns_gets {A : Type} (f : Machine -> A) : returns_with R (gets f).
Proof. intros m. exists (f m), m. split; [reflexivity | apply R_refl]. Qed.

Lemma returns_modify (f : Machine -> Machine) :
  (forall m, R m (f m)) -> returns_with R (modify f).
Proof. intros H m. exists tt, (f m). split; [reflexivity | apply H]. Qed.

Lemma returns_bind {A B : Type} (c : M A) (k : A -> M B) :
  returns_with R c -> (forall a, returns_with R (k a)) ->
  returns_with R (bind c k).
Proof.
  intros Hc Hk m. unfold bind.
  destruct (Hc m) as (a & m' & Hcm & HR). rewrite Hcm.
  destruct (Hk a m') as (b & m'' & Hkm & HR').
  exists b, m''. split; [exact Hkm | apply R_trans with m'; assumption].
Qed.

Lemma returns_preserves {A : Type} (c : M A) :
  returns_with R c -> preserves R c.
Proof.
  intros H m. destruct (H m) as (a & m' & Hcm & HR).
  rewrite Hcm. exact HR.
Qed.

End Frame.

(** ** The marker and the boot counter are written by [setup] only *)

Lemma same_identity_refl (m : Machine) : same_identity m m.
Proof. split; reflexivity. Qed.

Lemma same_identity_trans (m1 m2 m3 : Machine) :
  same_identity m1 m2 -> same_identity m2 m3 -> same_identity m1 m3.
Proof. unfold same_identity. intros [H1 H2] [H3 H4]. split; congruence. Qed.

Ltac identity_step :=
  match goal with
  | |- returns_with _ (bind _ _) =>
      apply (returns_bind _ same_identity_trans); [| intro]
  | |- returns_with _ (ret _) => apply (returns_ret _ same_identity_refl)
  | |- returns_with _ (gets _) => apply (returns_gets _ same_identity_refl)
  | |- returns_with _ (rd _) => apply (returns_gets _ same_identity_refl)
  | |- returns_with _ (assign _ _) =>
      apply returns_modify; intro; split; reflexivity
  | |- returns_with _ (modify _) =>
      apply returns_modify; intro; split; reflexivity
  | |- returns_with _ (millis _) =>
      intro; eexists _, _; split; [reflexivity | split; reflexivity]
  | |- returns_with _ (esp_task_wdt_reset _) =>
      intro; eexists _, _; split; [reflexivity | split; reflexivity]
  | |- preserves _ (bind _ _) =>
      apply (preserves_bind _ same_identity_trans); [| intro]
  | |- preserves _ (ret _) => apply (preserves_ret _ same_identity_refl)
  | |- preserves _ hangUntilReset =>
      apply (preserves_hang _ same_identity_refl)
  | |- _ _ (match ?x with _ => _ end) => destruct x
  | |- preserves _ ?c =>
      lazymatch c with
      | disableWindowWait _ _ _ _ => fail
      | _ => apply returns_preserves
      end
  end.

Ltac identity := repeat (cbv beta; identity_step).

Section Identity.

Variable clk : nat -> Z.
Variable wdt_reset : nat -> Z.

Lemma wdtFeedIfDue_identity (intervalMs : Z) :
  returns_with same_identity (wdtFeedIfDue clk wdt_reset intervalMs).
Proof. unfold wdtFeedIfDue. identity. Qed.

Lemma resetCountersForPhase_identity :
  returns_with same_identity (resetCountersForPhase clk).
Proof. unfold resetCountersForPhase. identity. Qed.

Lemma advancePhaseOnWdtReset_identity (reason : esp_reset_reason_t) :
  returns_with same_identity (advancePhaseOnWdtReset reason).
Proof. unfold advancePhaseOnWdtReset. identity. Qed.

Lemma stretchStepLogic_coarse_identity :
  returns_with same_identity
    (stretchStepLogic clk wdt_reset coarseIntervalRef kCoarseStepMs).
Proof.
  unfold stretchStepLogic, coarseIntervalRef. cbn [ref_get ref_set].
  pose proof wdtFeedIfDue_identity as Hfeed.
  identity; auto.
Qed.

Lemma stretchStepLogic_fine_identity :
  returns_with same_identity
    (stretchStepLogic clk wdt_reset fineIntervalRef kFineStepMs).
Proof.
  unfold stretchStepLogic, fineIntervalRef. cbn [ref_get ref_set].
  pose proof wdtFeedIfDue_identity as Hfeed.
  identity; auto.
Qed.

Lemma disableWindowWait_identity (fuel : nat) (start lastPrint : Z) :
  preserves same_identity (disableWindowWait clk fuel start lastPrint).
Proof.
  revert lastPrint. induction fuel as [| fuel IH]; intros lastPrint.
  - intros m. apply same_identity_refl.
  - cbn [disableWindowWait].
    apply (preserves_bind _ same_identity_trans);
      [identity | intro t].
    destruct (u32 (t - start) <? kDisableWindowMs); [| identity].
    apply (preserves_bind _ same_identity_trans);
      [identity | intro t'].
    apply IH.
Qed.

Lemma loop_identity (fuel : nat) :
  preserves same_identity (loop clk wdt_reset fuel).
Proof.
  pose proof wdtFeedIfDue_identity as Hfeed.
  pose proof resetCountersForPhase_identity as Hreset.
  pose proof stretchStepLogic_coarse_identity as Hcoarse.
  pose proof stretchStepLogic_fine_identity as Hfine.
  pose proof disableWindowWait_identity as Hwait.
  unfold loop, runDisableWindow, wdtEnable, wdtDisable.
  identity; auto.
Qed.

Lemma run_identity (fuel n : nat) :
  preserves same_identity (run clk wdt_reset fuel n).
Proof.
  induction n as [| n IH]; cbn [run].
  - apply (preserves_ret _ same_identity_refl).
  - apply (preserves_bind _ same_identity_trans);
      [apply loop_identity | intro; exact IH].
Qed.

End Identity.

(** ** The boot counter *)

Lemma setup_counts (clk : nat -> Z) (reason : esp_reset_reason_t) :
  returns_with boot_counted (setup clk reason).
Proof.
  intros m. unfold setup.
  set (rest := bind (advancePhaseOnWdtReset reason) _).
  assert (Hrest : returns_with same_identity rest).
  { pose proof (resetCountersForPhase_identity clk) as Hreset.
    pose proof (advancePhaseOnWdtReset_identity reason) as Hadv.
    subst rest. unfold printBootHeader, wdtEnable. identity; auto. }
  clearbody rest. open_machine m. unfold rtcInitIfNeeded, boot_counted. mrun.
  destruct (Z.eqb_spec magic0 kRtcMagic) as [He | Hne]; mrun.
  - match goal with
    | |- exists a m', rest ?m3 = _ /\ _ =>
        destruct (Hrest m3) as (a & m' & Hr & Hm & Hb)
    end.
    exists a, m'. split; [exact Hr |].
    mrun_in Hm. mrun_in Hb. rewrite Hm, Hb. split; [exact He | reflexivity].
  - match goal with
    | |- exists a m', rest ?m3 = _ /\ _ =>
        destruct (Hrest m3) as (a & m' & Hr & Hm & Hb)
    end.
    exists a, m'. split; [exact Hr |].
    mrun_in Hm. mrun_in Hb. rewrite Hm, Hb. split; reflexivity.
Qed.

Lemma rtc_after_boot_counted (b : BootEnv) (r : RtcState) :
  magic (rtc_after_boot b r) = kRtcMagic /\
  bootCount (rtc_after_boot b r) =
  u32 ((if magic r =? kRtcMagic then bootCount r else 0) + 1).
Proof.
  unfold rtc_after_boot, boot, bind.
  destruct (setup_counts (boot_clk b) (boot_reason b) (power_up r))
    as (a & m' & Hs & Hm & Hb).
  rewrite Hs.
  destruct (run_identity (boot_clk b) (boot_wdt b) (boot_fuel b)
                         (boot_iters b) m') as [Hm' Hb'].
  rewrite Hm', Hb', Hm, Hb. split; reflexivity.
Qed.

Lemma u32_succ (c : Z) : u32 (u32 c + 1) = u32 (c + 1).
Proof. unfold u32. apply Zplus_mod_idemp_l. Qed.

Lemma boots_count_valid (bs : list BootEnv) :
  forall (r : RtcState) (c : Z),
    magic r = kRtcMagic -> bootCount r = u32 c ->
    magic (boots bs r) = kRtcMagic /\
    bootCount (boots bs r) = u32 (c + Z.of_nat (length bs)).
Proof.
  induction bs as [| b bs IH]; intros r c Hm Hc.
  - cbn [boots fold_left length Z.of_nat]. rewrite Z.add_0_r. auto.
  - change (boots (b :: bs) r) with (boots bs (rtc_after_boot b r)).
    destruct (rtc_after_boot_counted b r) as [Hm' Hc'].
    rewrite Hm, Z.eqb_refl, Hc, u32_succ in Hc'.
    destruct (IH _ (c + 1) Hm' Hc') as [Hm'' Hc''].
    split; [exact Hm'' |]. rewrite Hc''. f_equal.
    cbn [length]. lia.
Qed.

Lemma boots_count_fresh (b : BootEnv) (bs : list BootEnv) (r : RtcState) :
  magic r <> kRtcMagic ->
  bootCount (boots (b :: bs) r) = u32 (Z.of_nat (length (b :: bs))).
Proof.
  intros Hne.
  change (boots (b :: bs) r) with (boots bs (rtc_after_boot b r)).
  destruct (rtc_after_boot_counted b r) as [Hm Hc].
  apply Z.eqb_neq in Hne. rewrite Hne in Hc.
  destruct (boots_count_valid bs _ 1 Hm Hc) as [_ Hc'].
  rewrite Hc'. f_equal. cbn [length]. lia.
Qed.

(** C5 (as the code has it).  [setup] increments [bootCount] modulo 2^32
    once per boot, right after [rtcInitIfNeeded]; starting from a record
    with a wrong marker, after k >= 1 consecutive boots, whatever their
    reset reasons, clocks and lengths, [bootCount] is k modulo 2^32, so
    it is k as long as k < 2^32. *)
Theorem bootCount_after_boots (bs : list BootEnv) (r : RtcState) :
  magic r <> kRtcMagic ->
  bs <> [] ->
  bootCount (boots bs r) = u32 (Z.of_nat (length bs)) /\
  (Z.of_nat (length bs) < 2 ^ 32 ->
   bootCount (boots bs r) = Z.of_nat (length bs)).
Proof.
  intros Hne Hbs. destruct bs as [| b bs]; [contradiction |].
  pose proof (boots_count_fresh b bs r Hne) as H.
  split; [exact H |].
  intros Hlt. rewrite H. apply u32_small. unfold in_u32. lia.
Qed.

Lemma bootCount_after_boots_witness :
  bootCount
    (boots [quiet_boot;
            mkBootEnv ESP_RST_TASK_WDT (fun n => 1000 * Z.of_nat n)
                      (fun _ => ESP_OK) 2%nat 3%nat;
            quiet_boot] fresh_rtc) = 3.
Proof.
  refine (proj2 (bootCount_after_boots _ fresh_rtc _ _) _).
  - vm_compute. discriminate.
  - discriminate.
  - vm_compute. reflexivity.
Defined.

(** The counter is a [uint32_t]: the 2^32-th boot in a row brings it back
    to 0. *)
Lemma bootCount_wraps :
  Z.of_nat (length (repeat quiet_boot (Z.to_nat (2 ^ 32)))) = 2 ^ 32 /\
  bootCount (boots (repeat quiet_boot (Z.to_nat (2 ^ 32))) fresh_rtc) = 0 /\
  bootCount (boots (repeat quiet_boot (Z.to_nat (2 ^ 32))) fresh_rtc) <>
  Z.of_nat (length (repeat quiet_boot (Z.to_nat (2 ^ 32)))).
Proof.
  assert (Hk : Z.of_nat (Z.to_nat (2 ^ 32)) = 2 ^ 32)
    by (apply Z2Nat.id; lia).
  revert Hk. generalize (Z.to_nat (2 ^ 32)). intros k Hk.
  rewrite repeat_length, Hk.
  assert (H0 : bootCount (boots (repeat quiet_boot k) fresh_rtc) = 0).
  { destruct k as [| k]; [cbn [Z.of_nat] in Hk; lia |].
    cbn [repeat].
    rewrite boots_count_fresh
      by (unfold fresh_rtc, kRtcMagic; cbn [magic]; discriminate).
    change (quiet_boot :: repeat quiet_boot k)
      with (repeat quiet_boot (S k)).
    rewrite repeat_length, Hk.
    unfold u32. apply Z.mod_same. lia. }
  split; [reflexivity |]. split; [exact H0 |]. rewrite H0. lia.
Qed.

(** ** Taking computations apart *)

Lemma bind_Returns {A B : Type} (c : M A) (k : A -> M B)
      (m m' : Machine) (b : B) :
  bind c k m = Returns b m' ->
  exists a m1, c m = Returns a m1 /\ k a m1 = Returns b m'.
Proof.
  unfold bind. destruct (c m) as [a m1 | m1 | m1]; intros H;
    try discriminate.
  exists a, m1. split; [reflexivity | exact H].
Qed.

Lemma bind_Hangs {A B : Type} (c : M A) (k : A -> M B) (m h : Machine) :
  bind c k m = HangsUntilReset h ->
  c m = HangsUntilReset h \/
  exists a m1, c m = Returns a m1 /\ k a m1 = HangsUntilReset h.
Proof.
  unfold bind. destruct (c m) as [a m1 | m1 | m1]; intros H;
    try discriminate.
  - right. exists a, m1. split; [reflexivity | exact H].
  - left. inversion H. reflexivity.
Qed.

(** Splits on a comparison the computation is stuck on. *)
Ltac split_cond :=
  match goal with
  | |- context [?a <? ?b] => destruct (Z.ltb_spec a b)
  | |- context [?a >=? ?b] => destruct (Z.geb_spec a b)
  | |- context [?a >? ?b] => destruct (Z.gtb_spec a b)
  | |- context [?a =? ?b] => destruct (Z.eqb_spec a b)
  end.

Ltac mexec := mrun; repeat (split_cond; mrun).

Ltac unfold_program :=
  unfold stretchStepLogic, runDisableWindow;
  unfold wdtFeedIfDue, resetCountersForPhase.

(** ** The feed counter stays below the threshold *)

Section FeedCount.

Variable clk : nat -> Z.
Variable wdt_reset : nat -> Z.

Lemma setup_feed_count (reason : esp_reset_reason_t) (m m' : Machine) :
  setup clk reason m = Returns tt m' -> gFeedCount m' = 0.
Proof.
  unfold setup. intros H.
  do 6 (apply bind_Returns in H; destruct H as (? & ? & _ & H);
        cbv beta in H).
  revert H. unfold resetCountersForPhase. mrun.
  intros H. inversion H. reflexivity.
Qed.

Lemma loop_feed_count_ok (fuel : nat) (m m' : Machine) :
  feed_count_ok m ->
  loop clk wdt_reset fuel m = Returns tt m' ->
  feed_count_ok m'.
Proof.
  intros Hok. unfold loop. unfold bind at 1. unfold rd at 1. unfold gets at 1.
  destruct (phase_cast (phase (gRtc m))) as [p |] eqn:Hc.
  - apply phase_cast_Some in Hc. pose proof u32_range as Hu.
    unfold feed_count_ok, in_u32, kMinFeedCount in *.
    open_machine m. mrun_in Hc. mrun_in Hok.
    destruct p; cbn [phase_code] in Hc, Hok; subst phase0; unfold_program.
    + mexec; intros Hloop; inversion Hloop; subst; mrun; cbn [phase_code];
        try specialize (Hu (gFeedCount0 + 1)); unfold kMinFeedCount in *; lia.
    + mrun. discriminate.
    + mrun. discriminate.
    + mrun.
      match goal with
      | |- context [disableWindowWait ?c ?f ?s ?l ?mm] =>
          destruct (disableWindowWait c f s l mm)
      end; intros Hloop; inversion Hloop; subst; mrun; lia.
    + mexec; intros Hloop; inversion Hloop; subst; mrun; cbn [phase_code];
        try specialize (Hu (gFeedCount0 + 1)); unfold kMinFeedCount in *; lia.
    + mexec; intros Hloop; inversion Hloop; subst; mrun; cbn [phase_code]; lia.
    + mexec; intros Hloop; inversion Hloop; subst; mrun; cbn [phase_code]; lia.
    + mrun. destruct done0; mrun; intros Hloop; inversion Hloop; subst; mrun;
        cbn [phase_code]; lia.
  - unfold_program. unfold feed_count_ok. open_machine m. mrun.
    intros Hloop. inversion Hloop. subst. mrun. unfold kMinFeedCount. lia.
Qed.

End FeedCount.

Section Warmup.

Variable clk : nat -> Z.
Variable wdt_reset : nat -> Z.

Lemma run_feed_count_ok (fuel n : nat) :
  forall m m',
    feed_count_ok m ->
    run clk wdt_reset fuel n m = Returns tt m' ->
    feed_count_ok m'.
Proof.
  induction n as [| n IH]; intros m m' Hok; cbn [run].
  - intros H. inversion H. subst. exact Hok.
  - intros H. apply bind_Returns in H.
    destruct H as ([] & m1 & Hloop & Hrun).
    apply (IH m1); [| exact Hrun].
    apply (loop_feed_count_ok clk wdt_reset fuel m); assumption.
Qed.

Lemma boot_feed_count_ok (reason : esp_reset_reason_t) (fuel n : nat)
      (r : RtcState) (m : Machine) :
  boot clk wdt_reset reason fuel n r = Returns tt m -> feed_count_ok m.
Proof.
  unfold boot. intros H. apply bind_Returns in H.
  destruct H as ([] & m1 & Hsetup & Hrun).
  apply (run_feed_count_ok fuel n m1); [| exact Hrun].
  apply setup_feed_count in Hsetup.
  intros _. rewrite Hsetup. unfold kMinFeedCount. lia.
Qed.

(** One iteration of [loop] in FeedWarmup. *)
Lemma loop_FeedWarmup (fuel : nat) (m : Machine) :
  phase (gRtc m) = phase_code FeedWarmup ->
  exists m',
    loop clk wdt_reset fuel m = Returns tt m' /\
    same_search (gRtc m) (gRtc m') /\
    let c := countAfterFeed clk wdt_reset m in
    (kMinFeedCount <= c /\
     phase (gRtc m') = phase_code ResetTest1 /\ gFeedCount m' = 0) \/
    (c < kMinFeedCount /\
     phase (gRtc m') = phase_code FeedWarmup /\ gFeedCount m' = c).
Proof.
  intros Hp. unfold loop. unfold bind at 1. unfold rd at 1. unfold gets at 1.
  rewrite Hp, phase_cast_code.
  unfold countAfterFeed, same_search, kMinFeedCount. unfold_program.
  open_machine m. mrun_in Hp. subst phase0.
  mexec; cbn [phase_code];
    (eexists; split; [reflexivity |]; mrun; cbn [phase_code];
     split; [reflexivity |]; lia).
Qed.

Lemma loop_ResetTest1 (fuel : nat) (m : Machine) :
  phase (gRtc m) = phase_code ResetTest1 ->
  loop clk wdt_reset fuel m = HangsUntilReset m.
Proof.
  intros Hp. unfold loop. unfold bind at 1. unfold rd at 1. unfold gets at 1.
  rewrite Hp, phase_cast_code. reflexivity.
Qed.

Lemma loop_ResetTest2 (fuel : nat) (m : Machine) :
  phase (gRtc m) = phase_code ResetTest2 ->
  loop clk wdt_reset fuel m = HangsUntilReset m.
Proof.
  intros Hp. unfold loop. unfold bind at 1. unfold rd at 1. unfold gets at 1.
  rewrite Hp, phase_cast_code. reflexivity.
Qed.

(** A boot that starts in FeedWarmup or ResetTest1 can only hang in
    ResetTest1, with the search fields as they were. *)
Lemma run_warmup_hangs (fuel n : nat) :
  forall m h,
    phase (gRtc m) = phase_code FeedWarmup \/
    phase (gRtc m) = phase_code ResetTest1 ->
    run clk wdt_reset fuel n m = HangsUntilReset h ->
    phase (gRtc h) = phase_code ResetTest1 /\
    same_search (gRtc m) (gRtc h).
Proof.
  induction n as [| n IH]; intros m h Hp; cbn [run].
  - discriminate.
  - intros H. apply bind_Hangs in H.
    destruct Hp as [Hp | Hp].
    + destruct (loop_FeedWarmup fuel m Hp) as (m1 & Hloop & Hs & Hc).
      rewrite Hloop in H.
      destruct H as [H | (a & m1' & He & Hrun)]; [discriminate |].
      inversion He. subst m1'. clear He.
      assert (Hp1 : phase (gRtc m1) = phase_code FeedWarmup \/
                    phase (gRtc m1) = phase_code ResetTest1).
      { cbv zeta in Hc. tauto. }
      destruct (IH m1 h Hp1 Hrun) as [Hh Hs'].
      split; [exact Hh |].
      unfold same_search in *. rewrite Hs', Hs.
      destruct (gRtc m), (gRtc m1), (gRtc h). reflexivity.
    + rewrite (loop_ResetTest1 fuel m Hp) in H.
      destruct H as [H | (a & m1' & He & _)]; [| discriminate].
      inversion H. subst h. split; [exact Hp |].
      unfold same_search. destruct (gRtc m). reflexivity.
Qed.

End Warmup.

(** ** Leaving FeedWarmup *)

Lemma countAfterFeed_step (clk wdt_reset : nat -> Z) (m : Machine) :
  countAfterFeed clk wdt_reset m = gFeedCount m \/
  countAfterFeed clk wdt_reset m = u32 (gFeedCount m + 1).
Proof.
  unfold countAfterFeed, wdtFeedIfDue. open_machine m.
  mexec; auto.
Qed.

(** C6.  In any boot, at any iteration of [loop] entered in FeedWarmup,
    whatever the clock reads: the feed counter is still below 6, and the
    iteration moves to ResetTest1 if its feed attempt brings the counter to
    6, and otherwise stays in FeedWarmup with the counter below 6. *)
Theorem warmup_exit_threshold
        (clk wdt_reset : nat -> Z) (reason : esp_reset_reason_t)
        (fuel n : nat) (r : RtcState) (m : Machine) :
  boot clk wdt_reset reason fuel n r = Returns tt m ->
  phase (gRtc m) = phase_code FeedWarmup ->
  gFeedCount m < 6 /\
  exists m',
    loop clk wdt_reset fuel m = Returns tt m' /\
    let c := countAfterFeed clk wdt_reset m in
    (c = 6 /\ phase (gRtc m') = phase_code ResetTest1) \/
    (c < 6 /\ phase (gRtc m') = phase_code FeedWarmup /\
     gFeedCount m' = c).
Proof.
  intros Hboot Hp.
  pose proof (boot_feed_count_ok _ _ _ _ _ _ _ Hboot) as Hok.
  unfold feed_count_ok, kMinFeedCount in Hok.
  specialize (Hok (or_introl Hp)).
  split; [lia |].
  destruct (loop_FeedWarmup clk wdt_reset fuel m Hp)
    as (m' & Hloop & _ & Hc).
  exists m'. split; [exact Hloop |].
  cbv zeta in *. unfold kMinFeedCount in Hc.
  destruct (countAfterFeed_step clk wdt_reset m) as [Hs | Hs].
  - right. lia.
  - rewrite u32_small in Hs by (unfold in_u32; lia).
    destruct Hc as [(Hge & Hp' & _) | Hlt]; [left | right; exact Hlt].
    split; [lia | exact Hp'].
Qed.

Lemma warmup_exit_threshold_witness :
  exists m,
    boot second_clock feed_succeeds ESP_RST_POWERON 0 5 fresh_rtc =
    Returns tt m /\
    gFeedCount m < 6 /\
    exists m',
      loop second_clock feed_succeeds 0 m = Returns tt m' /\
      let c := countAfterFeed second_clock feed_succeeds m in
      (c = 6 /\ phase (gRtc m') = phase_code ResetTest1) \/
      (c < 6 /\ phase (gRtc m') = phase_code FeedWarmup /\
       gFeedCount m' = c).
Proof.
  eexists. split; [vm_compute; reflexivity |].
  apply (warmup_exit_threshold second_clock feed_succeeds
                               ESP_RST_POWERON 0 5 fresh_rtc);
    vm_compute; reflexivity.
Defined.

(** ** The two reset tests, boot after boot *)

Lemma setup_fresh (clk : nat -> Z) (reason : esp_reset_reason_t)
      (r : RtcState) :
  magic r <> kRtcMagic ->
  setup clk reason (power_up r) =
  Returns tt
    (mkMachine
       (mkRtc kRtcMagic 1 (phase_code FeedWarmup) kStretchStartMs
              0 0 0 0 0 0 0)
       (u32 (clk 0%nat)) 0 0 0 0 false 1%nat 0%nat).
Proof.
  intros Hne. destruct r. cbn [magic] in Hne.
  unfold setup, rtcInitIfNeeded, advancePhaseOnWdtReset,
         resetCountersForPhase.
  mrun. destruct (Z.eqb_spec magic0 kRtcMagic) as [He | _];
    [contradiction |].
  destruct reason; mrun; rewrite ?phase_cast_code; mrun; reflexivity.
Qed.

Lemma setup_after_ResetTest1 (clk : nat -> Z) (r : RtcState) :
  magic r = kRtcMagic ->
  phase r = phase_code ResetTest1 ->
  setup clk ESP_RST_TASK_WDT (power_up r) =
  Returns tt
    (mkMachine
       (set_phase (phase_code ResetTest2)
                  (set_bootCount (u32 (bootCount r + 1)) r))
       (u32 (clk 0%nat)) 0 0 0 0 false 1%nat 0%nat).
Proof.
  destruct r. cbn [magic phase]. intros Hm Hp. subst.
  unfold setup, rtcInitIfNeeded, advancePhaseOnWdtReset,
         resetCountersForPhase.
  mrun. rewrite Z.eqb_refl. mrun. rewrite phase_cast_code. mrun. reflexivity.
Qed.

Lemma setup_after_ResetTest2 (clk : nat -> Z) (r : RtcState) :
  magic r = kRtcMagic ->
  phase r = phase_code ResetTest2 ->
  setup clk ESP_RST_TASK_WDT (power_up r) =
  Returns tt
    (mkMachine
       (set_phase (phase_code Disabled30s)
                  (set_bootCount (u32 (bootCount r + 1)) r))
       (u32 (clk 0%nat)) 0 0 0 0 false 1%nat 0%nat).
Proof.
  destruct r. cbn [magic phase]. intros Hm Hp. subst.
  unfold setup, rtcInitIfNeeded, advancePhaseOnWdtReset,
         resetCountersForPhase.
  mrun. rewrite Z.eqb_refl. mrun. rewrite phase_cast_code. mrun. reflexivity.
Qed.

(** C9.  Start from a record with a wrong marker.  Boot 1 comes up in
    FeedWarmup and, when it ends hanging, hangs in ResetTest1.  Boot 2,
    started by the task-watchdog reset that ends this hang, comes up in
    ResetTest2, having changed nothing in the record but the phase and the
    boot counter, and hangs again at its first [loop] iteration.  Boot 3,
    started by the next task-watchdog reset, comes up in Disabled30s. *)
Theorem reset_test_sequence
        (clk1 wdt1 clk2 wdt2 clk3 : nat -> Z)
        (reason1 : esp_reset_reason_t) (fuel1 n1 fuel2 n2 : nat)
        (r : RtcState) (h1 : Machine) :
  magic r <> kRtcMagic ->
  boot clk1 wdt1 reason1 fuel1 n1 r = HangsUntilReset h1 ->
  exists m1 m2 m3,
    setup clk1 reason1 (power_up r) = Returns tt m1 /\
    phase (gRtc m1) = phase_code FeedWarmup /\
    phase (gRtc h1) = phase_code ResetTest1 /\
    setup clk2 ESP_RST_TASK_WDT (power_up (gRtc h1)) = Returns tt m2 /\
    gRtc m2 =
    set_phase (phase_code ResetTest2)
              (set_bootCount (u32 (bootCount (gRtc h1) + 1)) (gRtc h1)) /\
    boot clk2 wdt2 ESP_RST_TASK_WDT fuel2 (S n2) (gRtc h1) =
    HangsUntilReset m2 /\
    setup clk3 ESP_RST_TASK_WDT (power_up (gRtc m2)) = Returns tt m3 /\
    phase (gRtc m3) = phase_code Disabled30s.
Proof.
  intros Hne Hboot. unfold boot in Hboot.
  apply bind_Hangs in Hboot. rewrite (setup_fresh clk1 reason1 r Hne) in Hboot.
  destruct Hboot as [Hboot | ([] & m1 & He & Hrun)]; [discriminate |].
  inversion He. subst m1. clear He.
  apply run_warmup_hangs in Hrun; [| left; reflexivity].
  destruct Hrun as [Hp1 Hs]. unfold same_search in Hs.
  cbn [gRtc] in Hs. rewrite Hp1 in Hs.
  assert (Hm1 : magic (gRtc h1) = kRtcMagic) by (rewrite Hs; reflexivity).
  pose proof (setup_after_ResetTest1 clk2 (gRtc h1) Hm1 Hp1) as Hs2.
  eexists _, _, _.
  split; [apply setup_fresh; exact Hne |].
  split; [reflexivity |].
  split; [exact Hp1 |].
  split; [exact Hs2 |].
  split; [reflexivity |].
  split.
  - unfold boot, bind at 1. rewrite Hs2. cbn [run]. unfold bind.
    rewrite loop_ResetTest2 by reflexivity. reflexivity.
  - split.
    + apply setup_after_ResetTest2.
      * cbn [gRtc]. rewrite Hs. reflexivity.
      * reflexivity.
    + reflexivity.
Qed.

Lemma reset_test_sequence_witness :
  exists h1,
    boot second_clock feed_succeeds ESP_RST_POWERON 0 7 fresh_rtc =
    HangsUntilReset h1 /\
    exists m1 m2 m3,
      setup second_clock ESP_RST_POWERON (power_up fresh_rtc) =
      Returns tt m1 /\
      phase (gRtc m1) = phase_code FeedWarmup /\
      phase (gRtc h1) = phase_code ResetTest1 /\
      setup second_clock ESP_RST_TASK_WDT (power_up (gRtc h1)) =
      Returns tt m2 /\
      gRtc m2 =
      set_phase (phase_code ResetTest2)
                (set_bootCount (u32 (bootCount (gRtc h1) + 1)) (gRtc h1)) /\
      boot second_clock feed_succeeds ESP_RST_TASK_WDT 0 1 (gRtc h1) =
      HangsUntilReset m2 /\
      setup second_clock ESP_RST_TASK_WDT (power_up (gRtc m2)) =
      Returns tt m3 /\
      phase (gRtc m3) = phase_code Disabled30s.
Proof.
  eexists. split; [vm_compute; reflexivity |].
  apply (reset_test_sequence second_clock feed_succeeds
                             second_clock feed_succeeds second_clock
                             ESP_RST_POWERON 0 7 0 0 fresh_rtc).
  - vm_compute. discriminate.
  - vm_compute. reflexivity.
Defined.

(** ** The coarse stretch *)

Section Stretch.

Variable clk : nat -> Z.
Variable wdt_reset : nat -> Z.

(** One iteration of [loop] in StretchCoarse. *)
Lemma loop_StretchCoarse (fuel : nat) (m : Machine) :
  phase (gRtc m) = phase_code StretchCoarse ->
  exists m',
    loop clk wdt_reset fuel m = Returns tt m' /\
    gRtc m' =
    set_coarseIntervalMs
      (if heldMs clk m >=? kStretchHoldMs
       then u32 (coarseIntervalMs (gRtc m) + kCoarseStepMs)
       else coarseIntervalMs (gRtc m))
      (gRtc m) /\
    (kStretchHoldMs <= heldMs clk m -> intervalStartMs m' = 0).
Proof.
  intros Hp. unfold loop. unfold bind at 1. unfold rd at 1. unfold gets at 1.
  rewrite Hp, phase_cast_code. unfold heldMs. unfold_program.
  open_machine m. mrun_in Hp. subst phase0.
  mexec; try (exfalso; lia);
    (eexists; split; [reflexivity |]; mrun;
     split; [reflexivity | intros; try reflexivity; lia]).
Qed.

Lemma run_StretchCoarse (fuel n : nat) :
  forall m,
    phase (gRtc m) = phase_code StretchCoarse ->
    in_u32 (coarseIntervalMs (gRtc m)) ->
    exists m',
      run clk wdt_reset fuel n m = Returns tt m' /\
      phase (gRtc m') = phase_code StretchCoarse /\
      in_u32 (coarseIntervalMs (gRtc m')).
Proof.
  induction n as [| n IH]; intros m Hp Hr; cbn [run].
  - exists m. auto.
  - destruct (loop_StretchCoarse fuel m Hp) as (m1 & Hloop & Hrtc & _).
    unfold bind. rewrite Hloop.
    apply IH; rewrite Hrtc.
    + destruct (gRtc m). exact Hp.
    + destruct (gRtc m). cbn [coarseIntervalMs set_coarseIntervalMs] in *.
      destruct (_ >=? _); [apply u32_range | exact Hr].
Qed.

(** C7 (as the code has it).  An execution that enters StretchCoarse
    and meets no reset goes through any number of iterations of [loop]
    and stays in StretchCoarse.  Each iteration leaves
    [coarseIntervalMs] as it is when the interval has been held for less
    than 8000 ms, and otherwise adds 500 to it modulo 2^32; so as long as
    [coarseIntervalMs + 500] fits 32 bits the interval does not decrease,
    and a completed hold adds exactly 500. *)
Theorem stretch_coarse_growth (fuel n : nat) (m : Machine) :
  phase (gRtc m) = phase_code StretchCoarse ->
  in_u32 (coarseIntervalMs (gRtc m)) ->
  exists mn m',
    run clk wdt_reset fuel n m = Returns tt mn /\
    loop clk wdt_reset fuel mn = Returns tt m' /\
    phase (gRtc mn) = phase_code StretchCoarse /\
    phase (gRtc m') = phase_code StretchCoarse /\
    (heldMs clk mn < 8000 ->
     coarseIntervalMs (gRtc m') = coarseIntervalMs (gRtc mn)) /\
    (8000 <= heldMs clk mn ->
     coarseIntervalMs (gRtc m') = u32 (coarseIntervalMs (gRtc mn) + 500)) /\
    (coarseIntervalMs (gRtc mn) + 500 < 2 ^ 32 ->
     coarseIntervalMs (gRtc mn) <= coarseIntervalMs (gRtc m') /\
     (8000 <= heldMs clk mn ->
      coarseIntervalMs (gRtc m') = coarseIntervalMs (gRtc mn) + 500)).
Proof.
  intros Hp Hr.
  destruct (run_StretchCoarse fuel n m Hp Hr) as (mn & Hrun & Hpn & Hrn).
  destruct (loop_StretchCoarse fuel mn Hpn) as (m' & Hloop & Hrtc & _).
  exists mn, m'.
  split; [exact Hrun |]. split; [exact Hloop |]. split; [exact Hpn |].
  rewrite Hrtc. unfold kStretchHoldMs, kCoarseStepMs. revert Hpn Hrn.
  destruct (gRtc mn). cbn [phase coarseIntervalMs set_coarseIntervalMs].
  intros Hpn Hrn.
  split; [exact Hpn |].
  destruct (Z.geb_spec (heldMs clk mn) 8000) as [Hge | Hlt].
  - split; [lia |]. split; [reflexivity |].
    intros Hfit. rewrite u32_small by (unfold in_u32 in *; lia).
    split; [lia | reflexivity].
  - split; [reflexivity |]. split; [lia |].
    intros _. split; lia.
Qed.

End Stretch.

Lemma stretch_coarse_growth_witness :
  exists mn m',
    run hold_clock feed_succeeds 0 2 (power_up coarse_entry_rtc) =
    Returns tt mn /\
    loop hold_clock feed_succeeds 0 mn = Returns tt m' /\
    coarseIntervalMs (gRtc mn) = 2000 /\
    coarseIntervalMs (gRtc m') = 2500.
Proof.
  destruct (stretch_coarse_growth hold_clock feed_succeeds 0 2
              (power_up coarse_entry_rtc))
    as (mn & m' & Hrun & Hloop & _ & _ & _ & Hhold & _).
  - reflexivity.
  - unfold in_u32. vm_compute. split; [discriminate | reflexivity].
  - exists mn, m'.
    assert (Hmn : Returns tt mn =
                  Returns tt
                    (mkMachine (set_coarseIntervalMs 2000 coarse_entry_rtc)
                               40000 1 0 1500 72000 false 10%nat 1%nat)).
    { rewrite <- Hrun. vm_compute. reflexivity. }
    inversion Hmn. subst mn.
    split; [exact Hrun |]. split; [exact Hloop |]. split; [reflexivity |].
    rewrite Hhold; vm_compute; [reflexivity | discriminate].
Defined.

Section AllHolds.

Variable clk : nat -> Z.
Variable wdt_reset : nat -> Z.

(** Every clock reading is at least 8000 ms after the one before. *)
Hypothesis clk_holds :
  forall i, kStretchHoldMs <= u32 (u32 (clk (S i)) - u32 (clk i)).

(** Then every iteration completes a hold. *)
Lemma run_all_holds (fuel n : nat) :
  forall m,
    phase (gRtc m) = phase_code StretchCoarse ->
    intervalStartMs m = 0 ->
    exists m',
      run clk wdt_reset fuel n m = Returns tt m' /\
      phase (gRtc m') = phase_code StretchCoarse /\
      intervalStartMs m' = 0 /\
      u32 (coarseIntervalMs (gRtc m')) =
      u32 (coarseIntervalMs (gRtc m) + 500 * Z.of_nat n).
Proof.
  induction n as [| n IH]; intros m Hp Hs; cbn [run].
  - exists m. repeat split; try assumption.
    cbn [Z.of_nat]. f_equal. lia.
  - destruct (loop_StretchCoarse clk wdt_reset fuel m Hp)
      as (m1 & Hloop & Hrtc & Hstart).
    assert (Hheld : kStretchHoldMs <= heldMs clk m).
    { unfold heldMs. rewrite Hs. cbn [Z.eqb]. apply clk_holds. }
    specialize (Hstart Hheld).
    destruct (Z.geb_spec (heldMs clk m) kStretchHoldMs) as [_ | Hlt];
      [| lia].
    assert (Hp1 : phase (gRtc m1) = phase_code StretchCoarse).
    { rewrite Hrtc. destruct (gRtc m). exact Hp. }
    destruct (IH m1 Hp1 Hstart) as (m' & Hrun & Hp' & Hs' & Hc').
    exists m'. unfold bind. rewrite Hloop.
    split; [exact Hrun |]. split; [exact Hp' |]. split; [exact Hs' |].
    rewrite Hc', Hrtc. destruct (gRtc m).
    cbn [coarseIntervalMs set_coarseIntervalMs]. unfold kCoarseStepMs, u32.
    rewrite Zplus_mod_idemp_l. f_equal. lia.
Qed.

End AllHolds.

Lemma hold_clock_holds (i : nat) :
  kStretchHoldMs <= u32 (u32 (hold_clock (S i)) - u32 (hold_clock i)).
Proof.
  unfold u32, hold_clock, kStretchHoldMs. rewrite <- Zminus_mod.
  replace (8000 * Z.of_nat (S i) - 8000 * Z.of_nat i) with 8000 by lia.
  rewrite Z.mod_small by lia. lia.
Qed.

(** With no reset to stop it the interval grows by 500 per hold from 1000
    to 4294967000, and the next hold wraps it round to 204. *)
Lemma coarse_interval_wraps :
  exists m m',
    boot hold_clock feed_succeeds ESP_RST_SW 0 (Z.to_nat 8589932)
         coarse_entry_rtc = Returns tt m /\
    loop hold_clock feed_succeeds 0 m = Returns tt m' /\
    phase (gRtc m) = phase_code StretchCoarse /\
    coarseIntervalMs (gRtc m) = 4294967000 /\
    coarseIntervalMs (gRtc m') = 204 /\
    coarseIntervalMs (gRtc m') < coarseIntervalMs (gRtc m).
Proof.
  assert (Hk : Z.of_nat (Z.to_nat 8589932) = 8589932)
    by (apply Z2Nat.id; lia).
  revert Hk. generalize (Z.to_nat 8589932). intros k Hk.
  unfold boot, bind.
  assert (Hsetup :
            setup hold_clock ESP_RST_SW (power_up coarse_entry_rtc) =
            Returns tt
              (mkMachine
                 (set_bootCount 5 coarse_entry_rtc) 0 0 0 0 0 false
                 1%nat 0%nat)) by reflexivity.
  rewrite Hsetup. clear Hsetup.
  set (ms := mkMachine (set_bootCount 5 coarse_entry_rtc) 0 0 0 0 0 false
                       1%nat 0%nat).
  destruct (run_all_holds hold_clock feed_succeeds hold_clock_holds 0 k
              ms eq_refl eq_refl) as (m & Hrun & Hp & Hs & Hc).
  destruct (run_StretchCoarse hold_clock feed_succeeds 0 k
              ms eq_refl (u32_range 1000)) as (m0 & Hrun0 & _ & Hr).
  rewrite Hrun in Hrun0. inversion Hrun0. subst m0. clear Hrun0.
  rewrite (u32_small _ Hr) in Hc.
  subst ms. cbn [gRtc coarseIntervalMs set_bootCount coarse_entry_rtc] in Hc.
  unfold kStretchStartMs in Hc. rewrite Hk in Hc.
  change (u32 (1000 + 500 * 8589932)) with 4294967000 in Hc.
  destruct (loop_StretchCoarse hold_clock feed_succeeds 0 m Hp)
    as (m' & Hloop & Hrtc & _).
  exists m, m'.
  split; [exact Hrun |]. split; [exact Hloop |]. split; [exact Hp |].
  split; [exact Hc |].
  assert (Hheld : kStretchHoldMs <= heldMs hold_clock m).
  { unfold heldMs. rewrite Hs. cbn [Z.eqb]. apply hold_clock_holds. }
  destruct (Z.geb_spec (heldMs hold_clock m) kStretchHoldMs) as [_ | Hlt];
    [| lia].
  assert (Hc' : coarseIntervalMs (gRtc m') = 204).
  { rewrite Hrtc. destruct (gRtc m).
    cbn [coarseIntervalMs set_coarseIntervalMs] in *. rewrite Hc.
    reflexivity. }
  split; [exact Hc' |]. rewrite Hc', Hc. reflexivity.
Qed.

(** * Further properties of the sketch *)

(** ** The disable window *)

Section DisableWindow.

Variable clk : nat -> Z.

(** The busy-wait returns only on a clock reading that shows the window
    over, and touches nothing but the count of clock readings. *)
Lemma disableWindowWait_Returns (fuel : nat) (start : Z) :
  forall lastPrint m m',
    disableWindowWait clk fuel start lastPrint m = Returns tt m' ->
    m' = set_millisCalls (millisCalls m') m /\
    (millisCalls m < millisCalls m')%nat /\
    kDisableWindowMs <= u32 (u32 (clk (pred (millisCalls m'))) - start).
Proof.
  induction fuel as [| fuel IH]; intros lastPrint m m'; cbn [disableWindowWait].
  - discriminate.
  - unfold bind at 1. unfold millis at 1.
    destruct (Z.ltb_spec (u32 (u32 (clk (millisCalls m)) - start))
                         kDisableWindowMs) as [Hlt | Hge].
    + unfold bind at 1. unfold millis at 1. intros H.
      apply IH in H. destruct H as (Hm & Hn & Hw).
      destruct m. cbn in Hn, Hm |- *.
      split; [exact Hm |]. split; [lia | exact Hw].
    + intros H. inversion H. subst m'. destruct m. cbn.
      split; [reflexivity |]. split; [lia | exact Hge].
Qed.

(** It never hangs. *)
Lemma disableWindowWait_no_hang (fuel : nat) (start : Z) :
  forall lastPrint m h,
    disableWindowWait clk fuel start lastPrint m <> HangsUntilReset h.
Proof.
  induction fuel as [| fuel IH]; intros lastPrint m h; cbn [disableWindowWait].
  - discriminate.
  - unfold bind at 1. unfold millis at 1.
    destruct (_ <? _).
    + unfold bind at 1. unfold millis at 1. apply IH.
    + discriminate.
Qed.

(** It stops at a machine that differs from the one it started on in the
    count of clock readings only. *)
Lemma disableWindowWait_frame (fuel : nat) (start : Z) :
  forall lastPrint m,
  exists k,
    machine_of (disableWindowWait clk fuel start lastPrint m) =
    set_millisCalls k m.
Proof.
  induction fuel as [| fuel IH]; intros lastPrint m; cbn [disableWindowWait].
  - exists (millisCalls m). destruct m. reflexivity.
  - unfold bind at 1. unfold millis at 1.
    destruct (_ <? _).
    + unfold bind at 1. unfold millis at 1.
      match goal with
      | |- exists _, machine_of (disableWindowWait _ _ _ ?l ?mm) = _ =>
          destruct (IH l mm) as (k & Hk)
      end.
      exists k. rewrite Hk. destruct m. reflexivity.
    + eexists. reflexivity.
Qed.

(** With enough fuel it returns as soon as a reading of the loop condition
    shows the window over. *)
Lemma disableWindowWait_terminates (j : nat) (start : Z) :
  forall fuel lastPrint m,
    (j < fuel)%nat ->
    kDisableWindowMs <=
    u32 (u32 (clk (millisCalls m + 2 * j)%nat) - start) ->
    exists m', disableWindowWait clk fuel start lastPrint m = Returns tt m'.
Proof.
  induction j as [| j IH]; intros fuel lastPrint m Hj Hw;
    (destruct fuel as [| fuel]; [lia |]); cbn [disableWindowWait];
    unfold bind at 1; unfold millis at 1;
    destruct (Z.ltb_spec (u32 (u32 (clk (millisCalls m)) - start))
                         kDisableWindowMs) as [Hlt | Hge];
    try (eexists; reflexivity).
  - replace (millisCalls m + 2 * 0)%nat with (millisCalls m) in Hw by lia.
    lia.
  - unfold bind at 1. unfold millis at 1.
    apply IH; [lia |].
    destruct m. cbn [millisCalls set_millisCalls] in Hw |- *.
    replace (S (S millisCalls0) + 2 * j)%nat
      with (millisCalls0 + 2 * S j)%nat by lia.
    exact Hw.
Qed.

End DisableWindow.

(** X1.  [runDisableWindow] returns only once the clock reads at least
    30000 ms (modulo 2^32) more than it read on entry, and changes no
    program variable. *)
Theorem disable_window_lasts (clk : nat -> Z) (fuel : nat) (m m' : Machine) :
  runDisableWindow clk fuel m = Returns tt m' ->
  m' = set_millisCalls (millisCalls m') m /\
  (millisCalls m + 2 <= millisCalls m')%nat /\
  30000 <=
  u32 (u32 (clk (pred (millisCalls m'))) - u32 (clk (millisCalls m))).
Proof.
  unfold runDisableWindow, wdtDisable, wdtEnable.
  unfold bind at 1. unfold ret at 1. unfold bind at 1. unfold millis at 1.
  intros H. apply bind_Returns in H. destruct H as ([] & m1 & Hw & Hr).
  inversion Hr. subst m1. clear Hr.
  apply disableWindowWait_Returns in Hw. destruct Hw as (Hm & Hn & Hw).
  destruct m. cbn [millisCalls set_millisCalls] in *.
  split; [exact Hm |]. split; [lia | exact Hw].
Qed.

Lemma disable_window_lasts_witness :
  exists m',
    runDisableWindow second_clock 20 (power_up disabled_rtc) =
    Returns tt m' /\
    m' = set_millisCalls (millisCalls m') (power_up disabled_rtc) /\
    (millisCalls (power_up disabled_rtc) + 2 <= millisCalls m')%nat /\
    30000 <=
    u32 (u32 (second_clock (pred (millisCalls m'))) -
         u32 (second_clock (millisCalls (power_up disabled_rtc)))).
Proof.
  eexists. split; [vm_compute; reflexivity |].
  apply (disable_window_lasts second_clock 20 (power_up disabled_rtc)).
  vm_compute. reflexivity.
Defined.

(** X2.  In Disabled30s, once some reading of the wait's loop condition
    shows 30000 ms elapsed since entry, [loop] returns: the phase is
    FeedAfterOn, the feed counter is 0, and the rest of the record is as it
    was. *)
Theorem disabled_phase_ends (clk wdt_reset : nat -> Z) (fuel j : nat)
        (m : Machine) :
  phase (gRtc m) = phase_code Disabled30s ->
  (j < fuel)%nat ->
  30000 <=
  u32 (u32 (clk (S (millisCalls m) + 2 * j)%nat) - u32 (clk (millisCalls m))) ->
  exists m',
    loop clk wdt_reset fuel m = Returns tt m' /\
    gRtc m' = set_phase (phase_code FeedAfterOn) (gRtc m) /\
    gFeedCount m' = 0.
Proof.
  intros Hp Hj Hw. unfold loop. unfold bind at 1. unfold rd at 1.
  unfold gets at 1. rewrite Hp, phase_cast_code.
  unfold runDisableWindow, wdtDisable, wdtEnable, resetCountersForPhase.
  unfold bind at 1. unfold bind at 1. unfold ret at 1.
  unfold bind at 1. unfold millis at 1. unfold bind at 1.
  destruct (disableWindowWait_terminates clk j (u32 (clk (millisCalls m)))
              fuel 0 (set_millisCalls (S (millisCalls m)) m) Hj)
    as (m1 & Hwait).
  { destruct m. exact Hw. }
  rewrite Hwait.
  apply disableWindowWait_Returns in Hwait. destruct Hwait as (Hm1 & _ & _).
  rewrite Hm1. destruct m. mrun. eexists. split; [reflexivity |].
  split; reflexivity.
Qed.

Lemma disabled_phase_ends_witness :
  exists m',
    loop second_clock feed_succeeds 20 (power_up disabled_rtc) =
    Returns tt m' /\
    gRtc m' = set_phase (phase_code FeedAfterOn) disabled_rtc /\
    gFeedCount m' = 0.
Proof.
  apply (disabled_phase_ends second_clock feed_succeeds 20 15
                             (power_up disabled_rtc)).
  - reflexivity.
  - lia.
  - vm_compute. discriminate.
Defined.

(** ** Feeding after the watchdog is back on *)

(** One iteration of [loop] in FeedAfterOn. *)
Lemma loop_FeedAfterOn (clk wdt_reset : nat -> Z) (fuel : nat) (m : Machine) :
  phase (gRtc m) = phase_code FeedAfterOn ->
  exists m',
    loop clk wdt_reset fuel m = Returns tt m' /\
    let c := countAfterFeed clk wdt_reset m in
    (kMinFeedCount <= c /\
     gRtc m' =
     mkRtc (magic (gRtc m)) (bootCount (gRtc m)) (phase_code StretchCoarse)
           kStretchStartMs 0 0 0 0 0 0 0 /\
     gFeedCount m' = 0) \/
    (c < kMinFeedCount /\ gRtc m' = gRtc m /\ gFeedCount m' = c).
Proof.
  intros Hp. unfold loop. unfold bind at 1. unfold rd at 1. unfold gets at 1.
  rewrite Hp, phase_cast_code.
  unfold countAfterFeed, kMinFeedCount. unfold_program.
  open_machine m. mrun_in Hp. subst phase0.
  mexec; cbn [phase_code];
    (eexists; split; [reflexivity |]; mrun; cbn [phase_code];
     first [ left; split; [lia |]; split; reflexivity
           | right; split; [lia |]; split; reflexivity ]).
Qed.

(** X3.  In any boot, an iteration of [loop] entered in FeedAfterOn finds
    the feed counter below 6.  If its feed attempt brings the counter to 6
    it moves to StretchCoarse and rewrites the search data: the coarse
    interval is 1000 and every other search and result field is 0.
    Otherwise the record is left as it was. *)
Theorem post_enable_exit
        (clk wdt_reset : nat -> Z) (reason : esp_reset_reason_t)
        (fuel n : nat) (r : RtcState) (m : Machine) :
  boot clk wdt_reset reason fuel n r = Returns tt m ->
  phase (gRtc m) = phase_code FeedAfterOn ->
  gFeedCount m < 6 /\
  exists m',
    loop clk wdt_reset fuel m = Returns tt m' /\
    let c := countAfterFeed clk wdt_reset m in
    (c = 6 /\
     gRtc m' =
     mkRtc (magic (gRtc m)) (bootCount (gRtc m)) (phase_code StretchCoarse)
           1000 0 0 0 0 0 0 0) \/
    (c < 6 /\ gRtc m' = gRtc m /\ gFeedCount m' = c).
Proof.
  intros Hboot Hp.
  pose proof (boot_feed_count_ok _ _ _ _ _ _ _ Hboot) as Hok.
  unfold feed_count_ok, kMinFeedCount in Hok.
  specialize (Hok (or_intror Hp)).
  split; [lia |].
  destruct (loop_FeedAfterOn clk wdt_reset fuel m Hp) as (m' & Hloop & Hc).
  exists m'. split; [exact Hloop |].
  cbv zeta in *. unfold kMinFeedCount, kStretchStartMs in Hc.
  destruct (countAfterFeed_step clk wdt_reset m) as [Hs | Hs].
  - right. destruct Hc as [(Hge & _) | Hlt]; [lia | exact Hlt].
  - rewrite u32_small in Hs by (unfold in_u32; lia).
    destruct Hc as [(Hge & Hr & _) | Hlt]; [left | right; exact Hlt].
    split; [lia | exact Hr].
Qed.

Lemma post_enable_exit_witness :
  exists m,
    boot second_clock feed_succeeds ESP_RST_SW 0 5 post_enable_rtc =
    Returns tt m /\
    gFeedCount m < 6 /\
    exists m',
      loop second_clock feed_succeeds 0 m = Returns tt m' /\
      let c := countAfterFeed second_clock feed_succeeds m in
      (c = 6 /\
       gRtc m' =
       mkRtc (magic (gRtc m)) (bootCount (gRtc m))
             (phase_code StretchCoarse) 1000 0 0 0 0 0 0 0) \/
      (c < 6 /\ gRtc m' = gRtc m /\ gFeedCount m' = c).
Proof.
  eexists. split; [vm_compute; reflexivity |].
  apply (post_enable_exit second_clock feed_succeeds ESP_RST_SW 0 5
                          post_enable_rtc);
    vm_compute; reflexivity.
Defined.

(** ** The fine stretch *)

Section FineStretch.

Variable clk : nat -> Z.
Variable wdt_reset : nat -> Z.

(** One iteration of [loop] in StretchFine. *)
Lemma loop_StretchFine (fuel : nat) (m : Machine) :
  phase (gRtc m) = phase_code StretchFine ->
  exists m',
    loop clk wdt_reset fuel m = Returns tt m' /\
    gRtc m' =
    set_fineIntervalMs
      (if heldMs clk m >=? kStretchHoldMs
       then u32 (fineSeed (gRtc m) + kFineStepMs)
       else fineSeed (gRtc m))
      (gRtc m).
Proof.
  intros Hp. unfold loop. unfold bind at 1. unfold rd at 1. unfold gets at 1.
  rewrite Hp, phase_cast_code. unfold heldMs, fineSeed. unfold_program.
  open_machine m. mrun_in Hp. subst phase0.
  mexec; try (exfalso; lia);
    (eexists; split; [reflexivity |]; mrun; reflexivity).
Qed.



End FineStretch.


(** ** What [loop] does to the persistent record *)

Section LoopEffect.

Variable clk : nat -> Z.
Variable wdt_reset : nat -> Z.

Lemma loop_Result (fuel : nat) (m : Machine) :
  phase (gRtc m) = phase_code Result ->
  exists m',
    loop clk wdt_reset fuel m = Returns tt m' /\
    m' = set_done true m.
Proof.
  intros Hp. unfold loop. unfold bind at 1. unfold rd at 1. unfold gets at 1.
  rewrite Hp, phase_cast_code. open_machine m. mrun.
  destruct done0; mrun; eexists; split; reflexivity.
Qed.

Lemma loop_Disabled30s (fuel : nat) (m : Machine) :
  phase (gRtc m) = phase_code Disabled30s ->
  (exists m', loop clk wdt_reset fuel m = Returns tt m' /\
              gRtc m' = set_phase (phase_code FeedAfterOn) (gRtc m) /\
              gFeedCount m' = 0 /\ feedCalls m' = feedCalls m) \/
  (exists k, loop clk wdt_reset fuel m =
             OutOfFuel (set_millisCalls k m)).
Proof.
  intros Hp. remember (loop clk wdt_reset fuel m) as o eqn:Ho.
  unfold loop in Ho. unfold bind at 1 in Ho. unfold rd at 1 in Ho.
  unfold gets at 1 in Ho. rewrite Hp, phase_cast_code in Ho.
  unfold runDisableWindow, wdtDisable, wdtEnable, resetCountersForPhase in Ho.
  unfold bind at 1 in Ho. unfold bind at 1 in Ho. unfold ret at 1 in Ho.
  unfold bind at 1 in Ho. unfold millis at 1 in Ho. unfold bind at 1 in Ho.
  match type of Ho with
  | context [disableWindowWait ?c ?f ?s ?l ?mm] =>
      pose proof (disableWindowWait_frame c f s l mm) as (k & Hk);
      pose proof (disableWindowWait_no_hang c f s l mm) as Hnh;
      destruct (disableWindowWait c f s l mm) as [[] m1 | m1 | m1]
  end.
  - left. cbn [machine_of] in Hk. subst m1. destruct m. mrun_in Ho.
    exists (machine_of o). subst o. repeat split; reflexivity.
  - exfalso. apply (Hnh m1). reflexivity.
  - right. cbn [machine_of] in Hk. subst m1. exists k.
    destruct m. mrun_in Ho. subst o. reflexivity.
Qed.

Lemma loop_corrupt (fuel : nat) (m : Machine) :
  phase_cast (phase (gRtc m)) = None ->
  exists m',
    loop clk wdt_reset fuel m = Returns tt m' /\
    gRtc m' = set_phase (phase_code FeedWarmup) (gRtc m) /\
    gFeedCount m' = 0 /\ feedCalls m' = feedCalls m.
Proof.
  intros Hc. unfold loop. unfold bind at 1. unfold rd at 1. unfold gets at 1.
  rewrite Hc. unfold resetCountersForPhase. open_machine m. mrun.
  eexists. repeat split; reflexivity.
Qed.

Lemma loop_effect_spec (fuel : nat) (m : Machine) :
  loop_effect (gRtc m) (gRtc (machine_of (loop clk wdt_reset fuel m))).
Proof.
  unfold loop_effect.
  destruct (phase_cast (phase (gRtc m))) as [p |] eqn:Hc.
  - apply phase_cast_Some in Hc. destruct p.
    + destruct (loop_FeedWarmup clk wdt_reset fuel m Hc)
        as (m' & Hl & Hs & Hd).
      rewrite Hl. cbn [machine_of]. unfold same_search in Hs.
      cbv zeta in Hd. destruct Hd as [(_ & Hp & _) | (_ & Hp & _)];
        rewrite Hp in Hs.
      * right. left. auto.
      * left. rewrite Hs, <- Hc. destruct (gRtc m). reflexivity.
    + rewrite (loop_ResetTest1 clk wdt_reset fuel m Hc). left. reflexivity.
    + rewrite (loop_ResetTest2 clk wdt_reset fuel m Hc). left. reflexivity.
    + destruct (loop_Disabled30s fuel m Hc)
        as [(m' & Hl & Hr & _) | (k & Hl)]; rewrite Hl; cbn [machine_of].
      * right. right. left. auto.
      * left. destruct m. reflexivity.
    + destruct (loop_FeedAfterOn clk wdt_reset fuel m Hc) as (m' & Hl & Hd).
      rewrite Hl. cbn [machine_of]. cbv zeta in Hd.
      destruct Hd as [(_ & Hr & _) | (_ & Hr & _)].
      * right. right. right. left. auto.
      * left. exact Hr.
    + destruct (loop_StretchCoarse clk wdt_reset fuel m Hc)
        as (m' & Hl & Hr & _).
      rewrite Hl. cbn [machine_of].
      right. right. right. right. left. split; [exact Hc |].
      eexists. exact Hr.
    + destruct (loop_StretchFine clk wdt_reset fuel m Hc) as (m' & Hl & Hr).
      rewrite Hl. cbn [machine_of].
      right. right. right. right. right. left. split; [exact Hc |].
      eexists. exact Hr.
    + destruct (loop_Result fuel m Hc) as (m' & Hl & Hr).
      rewrite Hl. cbn [machine_of]. left. rewrite Hr. destruct m. reflexivity.
  - destruct (loop_corrupt fuel m Hc) as (m' & Hl & Hr & _).
    rewrite Hl. cbn [machine_of]. apply phase_cast_None in Hc.
    right. right. right. right. right. right. auto.
Qed.


End LoopEffect.


(** ** What [setup] does to a valid record *)

Lemma setup_valid_frame (clk : nat -> Z) (reason : esp_reset_reason_t)
      (r : RtcState) :
  magic r = kRtcMagic ->
  reason <> ESP_RST_TASK_WDT \/
  (phase r <> phase_code ResetTest1 /\
   phase r <> phase_code ResetTest2 /\
   phase r <> phase_code StretchCoarse /\
   phase r <> phase_code StretchFine) ->
  setup clk reason (power_up r) =
  Returns tt
    (mkMachine (set_bootCount (u32 (bootCount r + 1)) r)
               (u32 (clk 0%nat)) 0 0 0 0 false 1%nat 0%nat).
Proof.
  destruct r. cbn [magic phase]. intros Hm H. subst.
  unfold setup, rtcInitIfNeeded, advancePhaseOnWdtReset,
         resetCountersForPhase.
  mrun. rewrite Z.eqb_refl. mrun.
  destruct reason; mrun; try reflexivity.
  destruct H as [H | (H1 & H2 & H5 & H6)]; [congruence |].
  destruct (phase_cast phase0) as [p |] eqn:Hc; [| reflexivity].
  apply phase_cast_Some in Hc.
  destruct p; mrun; try reflexivity; contradiction.
Qed.

Lemma setup_after_StretchCoarse (clk : nat -> Z) (r : RtcState) :
  magic r = kRtcMagic ->
  phase r = phase_code StretchCoarse ->
  setup clk ESP_RST_TASK_WDT (power_up r) =
  Returns tt
    (mkMachine
       (mkRtc kRtcMagic (u32 (bootCount r + 1)) (phase_code StretchFine)
              (coarseIntervalMs r)
              (if coarseIntervalMs r >? kCoarseStepMs
               then u32 (coarseIntervalMs r - kCoarseStepMs) else 0)
              (coarseIntervalMs r)
              (if coarseIntervalMs r >? kCoarseStepMs
               then u32 (coarseIntervalMs r - kCoarseStepMs) else 0)
              0 0 (finalLastGoodMs r) (finalFailMs r))
       (u32 (clk 0%nat)) 0 0 0 0 false 1%nat 0%nat).
Proof.
  destruct r. cbn [magic phase]. intros Hm Hp. subst.
  unfold setup, rtcInitIfNeeded, advancePhaseOnWdtReset,
         resetCountersForPhase.
  mrun. rewrite Z.eqb_refl. mrun. rewrite phase_cast_code. mrun. reflexivity.
Qed.

Lemma setup_after_StretchFine (clk : nat -> Z) (r : RtcState) :
  magic r = kRtcMagic ->
  phase r = phase_code StretchFine ->
  setup clk ESP_RST_TASK_WDT (power_up r) =
  Returns tt
    (mkMachine
       (mkRtc kRtcMagic (u32 (bootCount r + 1)) (phase_code Result)
              (coarseIntervalMs r) (coarseLastGoodMs r) (coarseFailMs r)
              (fineIntervalMs r)
              (if fineIntervalMs r >? kFineStepMs
               then u32 (fineIntervalMs r - kFineStepMs) else 0)
              (fineIntervalMs r)
              (if fineIntervalMs r >? kFineStepMs
               then u32 (fineIntervalMs r - kFineStepMs) else 0)
              (fineIntervalMs r))
       (u32 (clk 0%nat)) 0 0 0 0 false 1%nat 0%nat).
Proof.
  destruct r. cbn [magic phase]. intros Hm Hp. subst.
  unfold setup, rtcInitIfNeeded, advancePhaseOnWdtReset,
         resetCountersForPhase.
  mrun. rewrite Z.eqb_refl. mrun. rewrite phase_cast_code. mrun. reflexivity.
Qed.

(** X6.  A boot whose reset reason is not the task watchdog leaves a valid
    record as it was, but for the boot counter, which it increments; the RAM
    counters start from zero and the feed timer from the current time. *)
Theorem other_reset_keeps_progress (clk : nat -> Z)
        (reason : esp_reset_reason_t) (r : RtcState) :
  magic r = kRtcMagic ->
  reason <> ESP_RST_TASK_WDT ->
  setup clk reason (power_up r) =
  Returns tt
    (mkMachine (set_bootCount (u32 (bootCount r + 1)) r)
               (u32 (clk 0%nat)) 0 0 0 0 false 1%nat 0%nat).
Proof.
  intros Hm Hr. apply setup_valid_frame; [exact Hm | left; exact Hr].
Qed.

Lemma other_reset_keeps_progress_witness :
  setup second_clock ESP_RST_BROWNOUT (power_up coarse_probe_rtc) =
  Returns tt
    (mkMachine (set_bootCount 5 coarse_probe_rtc) 0 0 0 0 0 false
               1%nat 0%nat).
Proof.
  apply (other_reset_keeps_progress second_clock ESP_RST_BROWNOUT
                                    coarse_probe_rtc).
  - reflexivity.
  - discriminate.
Defined.

(** ** Progress through the phases *)

Lemma phase_advances_refl (m : Machine) : phase_advances m m.
Proof. unfold phase_advances. intros. split; [assumption | lia]. Qed.

Lemma phase_advances_trans (m1 m2 m3 : Machine) :
  phase_advances m1 m2 -> phase_advances m2 m3 -> phase_advances m1 m3.
Proof.
  unfold phase_advances. intros H12 H23 Hm Hp.
  destruct (H12 Hm Hp) as [Hm2 Hp2].
  destruct (H23 Hm2) as [Hm3 Hp3]; [lia |].
  split; [exact Hm3 | lia].
Qed.

Lemma loop_phase_advances (clk wdt_reset : nat -> Z) (fuel : nat) :
  preserves phase_advances (loop clk wdt_reset fuel).
Proof.
  intros m Hm Hp.
  pose proof (loop_effect_spec clk wdt_reset fuel m) as He.
  unfold loop_effect in He.
  set (r' := gRtc (machine_of (loop clk wdt_reset fuel m))) in *.
  clearbody r'. revert Hm Hp He. destruct (gRtc m).
  cbn [magic phase phase_code set_phase set_coarseIntervalMs
       set_fineIntervalMs].
  intros Hm Hp He. unfold kStretchStartMs in He.
  destruct He as [He | [[Hq He] | [[Hq He] | [[Hq He] | [[Hq [v He]] |
                 [[Hq [v He]] | [Hq He]]]]]]];
    subst r';
    cbn [magic phase phase_code set_phase set_coarseIntervalMs
         set_fineIntervalMs];
    split; try assumption; lia.
Qed.

Lemma run_phase_advances (clk wdt_reset : nat -> Z) (fuel n : nat) :
  preserves phase_advances (run clk wdt_reset fuel n).
Proof.
  induction n as [| n IH]; cbn [run].
  - apply (preserves_ret _ phase_advances_refl).
  - apply (preserves_bind _ phase_advances_trans);
      [apply loop_phase_advances | intro; exact IH].
Qed.

Lemma setup_phase_advances (clk : nat -> Z) (reason : esp_reset_reason_t)
      (r : RtcState) :
  magic r = kRtcMagic ->
  0 <= phase r <= 7 ->
  exists m1,
    setup clk reason (power_up r) = Returns tt m1 /\
    magic (gRtc m1) = kRtcMagic /\
    phase r <= phase (gRtc m1) <= 7.
Proof.
  intros Hm Hp.
  destruct (Z.eq_dec (phase r) (phase_code ResetTest1)) as [H1 | H1];
    [| destruct (Z.eq_dec (phase r) (phase_code ResetTest2)) as [H2 | H2];
       [| destruct (Z.eq_dec (phase r) (phase_code StretchCoarse))
            as [H5 | H5];
          [| destruct (Z.eq_dec (phase r) (phase_code StretchFine))
               as [H6 | H6] ] ] ].
  5: { eexists. split; [apply setup_valid_frame; auto |].
       destruct r. cbn in *. split; [assumption | lia]. }
  all: destruct reason;
    try (eexists; split;
         [apply setup_valid_frame; [exact Hm | left; discriminate] |];
         destruct r; cbn in *; split; [assumption | lia]).
  - eexists. split; [apply setup_after_ResetTest1; assumption |].
    destruct r. cbn in *. split; [assumption | lia].
  - eexists. split; [apply setup_after_ResetTest2; assumption |].
    destruct r. cbn in *. split; [assumption | lia].
  - eexists. split; [apply setup_after_StretchCoarse; assumption |].
    cbn in *. split; [reflexivity | lia].
  - eexists. split; [apply setup_after_StretchFine; assumption |].
    cbn in *. split; [reflexivity | lia].
Qed.

Lemma rtc_after_boot_phase (b : BootEnv) (r : RtcState) :
  magic r = kRtcMagic ->
  0 <= phase r <= 7 ->
  magic (rtc_after_boot b r) = kRtcMagic /\
  phase r <= phase (rtc_after_boot b r) <= 7.
Proof.
  intros Hm Hp. unfold rtc_after_boot, boot, bind.
  destruct (setup_phase_advances (boot_clk b) (boot_reason b) r Hm Hp)
    as (m1 & Hs & Hm1 & Hp1).
  rewrite Hs.
  destruct (run_phase_advances (boot_clk b) (boot_wdt b) (boot_fuel b)
                               (boot_iters b) m1 Hm1) as [Hm2 Hp2];
    [lia |].
  split; [exact Hm2 | lia].
Qed.

(** X7.  Over any sequence of boots, whatever their reset reasons, clocks
    and lengths, a valid record in a named phase stays valid and its phase
    never moves back: the experiment only advances. *)
Theorem phase_never_regresses (bs : list BootEnv) (r : RtcState) :
  magic r = kRtcMagic ->
  0 <= phase r <= 7 ->
  magic (boots bs r) = kRtcMagic /\
  phase r <= phase (boots bs r) <= 7.
Proof.
  revert r. induction bs as [| b bs IH]; intros r Hm Hp.
  - cbn [boots fold_left]. split; [exact Hm | lia].
  - change (boots (b :: bs) r) with (boots bs (rtc_after_boot b r)).
    destruct (rtc_after_boot_phase b r Hm Hp) as [Hm1 Hp1].
    destruct (IH _ Hm1) as [Hm2 Hp2]; [lia |].
    split; [exact Hm2 | lia].
Qed.

Lemma phase_never_regresses_witness :
  magic (boots [mkBootEnv ESP_RST_TASK_WDT second_clock feed_succeeds 0 3;
                mkBootEnv ESP_RST_SW hold_clock feed_fails 0 2]
               coarse_probe_rtc) = kRtcMagic /\
  phase coarse_probe_rtc <=
  phase (boots [mkBootEnv ESP_RST_TASK_WDT second_clock feed_succeeds 0 3;
                mkBootEnv ESP_RST_SW hold_clock feed_fails 0 2]
               coarse_probe_rtc) <= 7.
Proof.
  apply (phase_never_regresses _ coarse_probe_rtc).
  - reflexivity.
  - vm_compute. split; discriminate.
Defined.

(** ** The stored result *)

Lemma result_kept_refl (m : Machine) : result_kept m m.
Proof. unfold result_kept. intros _ _. destruct (gRtc m). reflexivity. Qed.

Lemma result_kept_trans (m1 m2 m3 : Machine) :
  result_kept m1 m2 -> result_kept m2 m3 -> result_kept m1 m3.
Proof.
  unfold result_kept. intros H12 H23 Hm Hp.
  specialize (H12 Hm Hp). rewrite H12 in H23.
  revert Hm Hp H23. destruct (gRtc m1). cbn [magic phase set_bootCount].
  intros Hm Hp H23. rewrite (H23 Hm Hp). reflexivity.
Qed.

Lemma loop_result_kept (clk wdt_reset : nat -> Z) (fuel : nat) :
  preserves result_kept (loop clk wdt_reset fuel).
Proof.
  intros m Hm Hp.
  destruct (loop_Result clk wdt_reset fuel m Hp) as (m' & Hl & Hr).
  rewrite Hl. cbn [machine_of]. subst m'.
  destruct m as [r ? ? ? ? ? ? ? ?]. destruct r. reflexivity.
Qed.

Lemma run_result_kept (clk wdt_reset : nat -> Z) (fuel n : nat) :
  preserves result_kept (run clk wdt_reset fuel n).
Proof.
  induction n as [| n IH]; cbn [run].
  - apply (preserves_ret _ result_kept_refl).
  - apply (preserves_bind _ result_kept_trans);
      [apply loop_result_kept | intro; exact IH].
Qed.

Lemma rtc_after_boot_Result (b : BootEnv) (r : RtcState) :
  magic r = kRtcMagic ->
  phase r = phase_code Result ->
  rtc_after_boot b r = set_bootCount (u32 (bootCount r + 1)) r.
Proof.
  intros Hm Hp. unfold rtc_after_boot, boot, bind.
  rewrite setup_valid_frame;
    [| exact Hm | right; rewrite Hp; repeat split; discriminate].
  match goal with
  | |- gRtc (machine_of (run ?c ?w ?f ?n ?m1)) = _ =>
      pose proof (run_result_kept c w f n m1) as H
  end.
  unfold result_kept in H. revert H. destruct r.
  cbn [magic phase gRtc set_bootCount bootCount] in *.
  intros H. rewrite (H Hm Hp).
  pose proof (run_identity (boot_clk b) (boot_wdt b) (boot_fuel b)
                           (boot_iters b)) as Hid.
  match goal with
  | |- context [machine_of (run ?c ?w ?f ?n ?m1)] =>
      destruct (Hid m1) as [_ Hb]
  end.
  rewrite Hb. reflexivity.
Qed.

(** X8.  Once a valid record holds phase Result, no later boot, whatever
    its reset reason, clock and length, changes anything in it but the boot
    counter, which goes up by one per boot modulo 2^32. *)
Theorem result_is_final (bs : list BootEnv) (r : RtcState) :
  magic r = kRtcMagic ->
  phase r = phase_code Result ->
  in_u32 (bootCount r) ->
  boots bs r =
  set_bootCount (u32 (bootCount r + Z.of_nat (length bs))) r.
Proof.
  revert r. induction bs as [| b bs IH]; intros r Hm Hp Hb.
  - cbn [boots fold_left length Z.of_nat]. rewrite Z.add_0_r.
    rewrite (u32_small _ Hb). destruct r. reflexivity.
  - change (boots (b :: bs) r) with (boots bs (rtc_after_boot b r)).
    rewrite (rtc_after_boot_Result b r Hm Hp).
    rewrite IH.
    + destruct r. cbn [set_bootCount bootCount magic phase
                       coarseIntervalMs coarseLastGoodMs coarseFailMs
                       fineIntervalMs fineLastGoodMs fineFailMs
                       finalLastGoodMs finalFailMs].
      assert (Hc : u32 (u32 (bootCount0 + 1) + Z.of_nat (length bs)) =
                   u32 (bootCount0 + Z.of_nat (length (b :: bs)))).
      { unfold u32. rewrite Zplus_mod_idemp_l. f_equal. cbn [length]. lia. }
      rewrite Hc. reflexivity.
    + destruct r. exact Hm.
    + destruct r. exact Hp.
    + destruct r. apply u32_range.
Qed.

Lemma result_is_final_witness :
  boots [mkBootEnv ESP_RST_TASK_WDT second_clock feed_succeeds 0 3;
         mkBootEnv ESP_RST_POWERON hold_clock feed_fails 0 2]
        result_rtc =
  set_bootCount 8 result_rtc.
Proof.
  apply (result_is_final
           [mkBootEnv ESP_RST_TASK_WDT second_clock feed_succeeds 0 3;
            mkBootEnv ESP_RST_POWERON hold_clock feed_fails 0 2]
           result_rtc).
  - reflexivity.
  - reflexivity.
  - unfold in_u32. vm_compute. split; [discriminate | reflexivity].
Defined.

(** ** Measurements are recorded by [setup] only *)

Lemma results_kept_or_cleared_refl (m : Machine) :
  results_kept_or_cleared m m.
Proof. unfold results_kept_or_cleared. repeat split; left; reflexivity. Qed.

Lemma kept_or_cleared_chain (x y z : Z) :
  y = x \/ y = 0 -> z = y \/ z = 0 -> z = x \/ z = 0.
Proof. intros [Hy | Hy] [Hz | Hz]; subst; auto. Qed.

Lemma results_kept_or_cleared_trans (m1 m2 m3 : Machine) :
  results_kept_or_cleared m1 m2 -> results_kept_or_cleared m2 m3 ->
  results_kept_or_cleared m1 m3.
Proof.
  unfold results_kept_or_cleared.
  intros (A1 & A2 & A3 & A4 & A5 & A6) (B1 & B2 & B3 & B4 & B5 & B6).
  repeat split; eapply kept_or_cleared_chain; eassumption.
Qed.

Lemma loop_results_kept_or_cleared (clk wdt_reset : nat -> Z) (fuel : nat) :
  preserves results_kept_or_cleared (loop clk wdt_reset fuel).
Proof.
  intros m.
  pose proof (loop_effect_spec clk wdt_reset fuel m) as He.
  unfold loop_effect in He. unfold results_kept_or_cleared.
  set (r' := gRtc (machine_of (loop clk wdt_reset fuel m))) in *.
  clearbody r'. revert He. destruct (gRtc m). intros He.
  destruct He as [He | [[Hq He] | [[Hq He] | [[Hq He] | [[Hq [v He]] |
                 [[Hq [v He]] | [Hq He]]]]]]];
    subst r';
    cbn [coarseLastGoodMs coarseFailMs fineLastGoodMs fineFailMs
         finalLastGoodMs finalFailMs set_phase set_coarseIntervalMs
         set_fineIntervalMs];
    repeat split; auto.
Qed.

(** X9.  However many iterations of [loop] run, and however they end, each
    stored measurement (coarse, fine and final last-good and fail values) is
    afterwards what it was before or 0: [loop] records no measurement, it
    can only clear them. *)
Theorem loop_records_no_result (clk wdt_reset : nat -> Z) (fuel n : nat)
        (m : Machine) :
  results_kept_or_cleared m (machine_of (run clk wdt_reset fuel n m)).
Proof.
  revert m. change (preserves results_kept_or_cleared
                              (run clk wdt_reset fuel n)).
  induction n as [| n IH]; cbn [run].
  - apply (preserves_ret _ results_kept_or_cleared_refl).
  - apply (preserves_bind _ results_kept_or_cleared_trans);
      [apply loop_results_kept_or_cleared | intro; exact IH].
Qed.

(** ** From the coarse failure to the stored result *)

Lemma step_back (x s : Z) :
  in_u32 x -> 0 <= s ->
  (if x >? s then u32 (x - s) else 0) = Z.max 0 (x - s).
Proof.
  intros Hx Hs. destruct (Z.gtb_spec x s).
  - rewrite u32_small by (unfold in_u32 in *; lia). lia.
  - lia.
Qed.

Lemma run_fine_steps (clk wdt_reset : nat -> Z) (fuel n : nat) :
  forall (m : Machine) (k0 : nat),
    phase (gRtc m) = phase_code StretchFine ->
    in_u32 (coarseLastGoodMs (gRtc m)) ->
    fineIntervalMs (gRtc m) =
    u32 (coarseLastGoodMs (gRtc m) + 100 * Z.of_nat k0) ->
    exists m' k,
      run clk wdt_reset fuel n m = Returns tt m' /\
      (k <= k0 + n)%nat /\
      gRtc m' =
      set_fineIntervalMs
        (u32 (coarseLastGoodMs (gRtc m) + 100 * Z.of_nat k)) (gRtc m).
Proof.
  induction n as [| n IH]; intros m k0 Hp Hl Hf; cbn [run].
  - exists m, k0. split; [reflexivity |]. split; [lia |].
    rewrite <- Hf. destruct (gRtc m). reflexivity.
  - destruct (loop_StretchFine clk wdt_reset fuel m Hp) as (m1 & Hloop & Hr).
    unfold bind. rewrite Hloop.
    assert (Hk1 : exists k1,
               (k1 <= S k0)%nat /\
               gRtc m1 =
               set_fineIntervalMs
                 (u32 (coarseLastGoodMs (gRtc m) + 100 * Z.of_nat k1))
                 (gRtc m)).
    { rewrite Hr. unfold fineSeed, kFineStepMs.
      destruct (Z.eqb_spec (fineIntervalMs (gRtc m)) 0) as [Hz | Hnz];
        destruct (_ >=? _).
      - exists 1%nat. split; [lia |]. reflexivity.
      - exists 0%nat. split; [lia |]. cbn [Z.of_nat].
        rewrite Z.mul_0_r, Z.add_0_r, (u32_small _ Hl). reflexivity.
      - exists (S k0). split; [lia |]. rewrite Hf. f_equal.
        unfold u32. rewrite Zplus_mod_idemp_l. f_equal. lia.
      - exists k0. split; [lia |]. rewrite Hf. reflexivity. }
    destruct Hk1 as (k1 & Hk1 & Hr1).
    destruct (IH m1 k1) as (m' & k & Hrun & Hk & Hr').
    + rewrite Hr1. destruct (gRtc m). exact Hp.
    + rewrite Hr1. destruct (gRtc m). exact Hl.
    + rewrite Hr1. destruct (gRtc m). reflexivity.
    + exists m', k. split; [exact Hrun |]. split; [lia |].
      rewrite Hr', Hr1. destruct (gRtc m). reflexivity.
Qed.

Lemma run_Result_rtc (clk wdt_reset : nat -> Z) (fuel n : nat) (m : Machine) :
  magic (gRtc m) = kRtcMagic ->
  phase (gRtc m) = phase_code Result ->
  gRtc (machine_of (run clk wdt_reset fuel n m)) = gRtc m.
Proof.
  intros Hm Hp.
  pose proof (run_result_kept clk wdt_reset fuel n m Hm Hp) as Hk.
  destruct (run_identity clk wdt_reset fuel n m) as [_ Hb].
  rewrite Hk, Hb. destruct (gRtc m). reflexivity.
Qed.

(** X10.  Two boots in a row started by task-watchdog resets, the first
    found in StretchCoarse with probe X: the first records X and
    L = max(0, X-500) and runs the fine search from L, the second records
    the fine probe Y it finds, which is L plus a whole number of steps
    of 100 (modulo 2^32), at most one per [loop] iteration of the first
    boot, with max(0, Y-100) as last-good value, copies both as the final
    result and leaves the record in Result. *)
Theorem two_stage_search (bA bB : BootEnv) (r : RtcState) :
  magic r = kRtcMagic ->
  phase r = phase_code StretchCoarse ->
  in_u32 (coarseIntervalMs r) ->
  boot_reason bA = ESP_RST_TASK_WDT ->
  boot_reason bB = ESP_RST_TASK_WDT ->
  exists k,
    (k <= boot_iters bA)%nat /\
    let X := coarseIntervalMs r in
    let L := Z.max 0 (X - 500) in
    let Y := u32 (L + 100 * Z.of_nat k) in
    boots [bA; bB] r =
    mkRtc kRtcMagic (u32 (bootCount r + 2)) (phase_code Result)
          X L X
          Y (Z.max 0 (Y - 100)) Y
          (Z.max 0 (Y - 100)) Y.
Proof.
  intros Hm Hp HX HA HB.
  change (boots [bA; bB] r) with (rtc_after_boot bB (rtc_after_boot bA r)).
  assert (HL : in_u32 (Z.max 0 (coarseIntervalMs r - 500)))
    by (unfold in_u32 in *; lia).
  (* the first boot *)
  assert (HbA : exists k,
             (k <= boot_iters bA)%nat /\
             rtc_after_boot bA r =
             mkRtc kRtcMagic (u32 (bootCount r + 1)) (phase_code StretchFine)
                   (coarseIntervalMs r)
                   (Z.max 0 (coarseIntervalMs r - 500))
                   (coarseIntervalMs r)
                   (u32 (Z.max 0 (coarseIntervalMs r - 500)
                         + 100 * Z.of_nat k))
                   0 0 (finalLastGoodMs r) (finalFailMs r)).
  { unfold rtc_after_boot, boot, bind. rewrite HA.
    rewrite (setup_after_StretchCoarse _ r Hm Hp).
    unfold kCoarseStepMs. rewrite (step_back _ 500 HX) by lia.
    match goal with
    | |- context [run ?c ?w ?f ?n ?m1] =>
        destruct (run_fine_steps c w f n m1 0%nat)
          as (m' & k & Hrun & Hk & Hr)
    end.
    - reflexivity.
    - exact HL.
    - cbn [gRtc fineIntervalMs coarseLastGoodMs Z.of_nat].
      rewrite Z.mul_0_r, Z.add_0_r, (u32_small _ HL). reflexivity.
    - exists k. split; [lia |]. rewrite Hrun. cbn [machine_of].
      rewrite Hr. reflexivity. }
  destruct HbA as (k & Hk & HrA). exists k. split; [exact Hk |].
  cbv zeta. rewrite HrA.
  (* the second boot *)
  unfold rtc_after_boot, boot, bind. rewrite HB.
  rewrite setup_after_StretchFine by reflexivity.
  rewrite run_Result_rtc by reflexivity.
  cbn [gRtc bootCount coarseIntervalMs coarseLastGoodMs coarseFailMs
       fineIntervalMs].
  unfold kFineStepMs.
  rewrite (step_back _ 100 (u32_range _)) by lia.
  f_equal. unfold u32. rewrite Zplus_mod_idemp_l. f_equal. lia.
Qed.

Lemma two_stage_search_witness :
  exists k,
    (k <= 3)%nat /\
    boots [mkBootEnv ESP_RST_TASK_WDT hold_clock feed_succeeds 0 3;
           mkBootEnv ESP_RST_TASK_WDT second_clock feed_succeeds 0 1]
          coarse_probe_rtc =
    mkRtc kRtcMagic 6 (phase_code Result)
          5500 5000 5500
          (u32 (5000 + 100 * Z.of_nat k))
          (Z.max 0 (u32 (5000 + 100 * Z.of_nat k) - 100))
          (u32 (5000 + 100 * Z.of_nat k))
          (Z.max 0 (u32 (5000 + 100 * Z.of_nat k) - 100))
          (u32 (5000 + 100 * Z.of_nat k)).
Proof.
  apply (two_stage_search
           (mkBootEnv ESP_RST_TASK_WDT hold_clock feed_succeeds 0 3)
           (mkBootEnv ESP_RST_TASK_WDT second_clock feed_succeeds 0 1)
           coarse_probe_rtc).
  - reflexivity.
  - reflexivity.
  - unfold in_u32. vm_compute. split; [discriminate | reflexivity].
  - reflexivity.
  - reflexivity.
Defined.

(** ** The warmup cannot be cut short *)

Lemma run_warmup_slow (clk wdt_reset : nat -> Z) (fuel n : nat) :
  forall m,
    phase (gRtc m) = phase_code FeedWarmup ->
    0 <= gFeedCount m ->
    gFeedCount m + Z.of_nat n < kMinFeedCount ->
    exists m',
      run clk wdt_reset fuel n m = Returns tt m' /\
      phase (gRtc m') = phase_code FeedWarmup /\
      0 <= gFeedCount m' <= gFeedCount m + Z.of_nat n.
Proof.
  unfold kMinFeedCount.
  induction n as [| n IH]; intros m Hp Hg Hn; cbn [run].
  - exists m. split; [reflexivity |]. split; [exact Hp | lia].
  - destruct (loop_FeedWarmup clk wdt_reset fuel m Hp)
      as (m1 & Hloop & _ & Hc).
    unfold bind. rewrite Hloop. cbv zeta in Hc. unfold kMinFeedCount in Hc.
    assert (Hstep : countAfterFeed clk wdt_reset m <= gFeedCount m + 1).
    { destruct (countAfterFeed_step clk wdt_reset m) as [Hs | Hs];
        rewrite Hs; [lia |].
      rewrite u32_small by (unfold in_u32; lia). lia. }
    assert (Hlow : 0 <= countAfterFeed clk wdt_reset m).
    { destruct (countAfterFeed_step clk wdt_reset m) as [Hs | Hs];
        rewrite Hs; [lia |].
      pose proof (u32_range (gFeedCount m + 1)) as Hu.
      unfold in_u32 in Hu. lia. }
    destruct Hc as [(Hge & _) | (Hlt & Hp1 & Hg1)]; [lia |].
    destruct (IH m1 Hp1) as (m' & Hrun & Hp' & Hg'); [lia | lia |].
    exists m'. split; [exact Hrun |]. split; [exact Hp' | lia].
Qed.

(** X11.  A boot that comes up in FeedWarmup, on a record with a wrong
    marker or on a valid one stored in FeedWarmup, is still in FeedWarmup
    after fewer than six iterations of [loop], whatever the clock and the
    driver do: ResetTest1 is not entered before the sixth iteration. *)
Theorem warmup_takes_six_iterations
        (clk wdt_reset : nat -> Z) (reason : esp_reset_reason_t)
        (fuel n : nat) (r : RtcState) :
  magic r <> kRtcMagic \/
  (magic r = kRtcMagic /\ phase r = phase_code FeedWarmup) ->
  (n < 6)%nat ->
  exists m,
    boot clk wdt_reset reason fuel n r = Returns tt m /\
    phase (gRtc m) = phase_code FeedWarmup /\
    0 <= gFeedCount m <= Z.of_nat n.
Proof.
  intros Hr Hn. unfold boot, bind.
  assert (Hs : exists m1,
             setup clk reason (power_up r) = Returns tt m1 /\
             phase (gRtc m1) = phase_code FeedWarmup /\
             gFeedCount m1 = 0).
  { destruct Hr as [Hne | [Hm Hp]].
    - eexists. split; [apply setup_fresh; exact Hne |].
      split; reflexivity.
    - eexists. split.
      + apply setup_valid_frame; [exact Hm |].
        right. rewrite Hp. repeat split; discriminate.
      + destruct r. cbn in *. split; [exact Hp | reflexivity]. }
  destruct Hs as (m1 & Hs & Hp1 & Hg1). rewrite Hs.
  destruct (run_warmup_slow clk wdt_reset fuel n m1 Hp1)
    as (m & Hrun & Hp & Hg).
  - lia.
  - unfold kMinFeedCount. lia.
  - exists m. split; [exact Hrun |]. split; [exact Hp | lia].
Qed.

Lemma warmup_takes_six_iterations_witness :
  exists m,
    boot second_clock feed_succeeds ESP_RST_POWERON 0 5 fresh_rtc =
    Returns tt m /\
    phase (gRtc m) = phase_code FeedWarmup /\
    0 <= gFeedCount m <= 5.
Proof.
  apply (warmup_takes_six_iterations second_clock feed_succeeds
                                     ESP_RST_POWERON 0 5 fresh_rtc).
  - left. vm_compute. discriminate.
  - lia.
Defined.

(** ** Console labels *)

(** X12.  [resetReasonToString] gives different reset reasons different
    labels: the boot header tells every reason apart, and shows the
    task-watchdog label for that reason only. *)
Theorem resetReasonToString_injective (r1 r2 : esp_reset_reason_t) :
  resetReasonToString r1 = resetReasonToString r2 -> r1 = r2.
Proof.
  destruct r1, r2; intros H; try reflexivity; discriminate H.
Qed.

Lemma resetReasonToString_injective_witness :
  ESP_RST_TASK_WDT = ESP_RST_TASK_WDT.
Proof.
  apply (resetReasonToString_injective ESP_RST_TASK_WDT ESP_RST_TASK_WDT).
  reflexivity.
Defined.

(** ** Idling in Result *)

(** X13.  In Result, one or more iterations of [loop] return with the
    one-time flag [done] set and everything else, RAM counters and oracle
    positions included, as it was: after its first pass the program idles
    and neither reads the clock nor calls the driver. *)
Theorem result_idles (clk wdt_reset : nat -> Z) (fuel n : nat) (m : Machine) :
  phase (gRtc m) = phase_code Result ->
  run clk wdt_reset fuel (S n) m = Returns tt (set_done true m).
Proof.
  revert m. induction n as [| n IH]; intros m Hp.
  - cbn [run]. unfold bind.
    destruct (loop_Result clk wdt_reset fuel m Hp) as (m' & Hl & Hm').
    rewrite Hl. subst m'. reflexivity.
  - change (run clk wdt_reset fuel (S (S n)) m)
      with (bind (loop clk wdt_reset fuel)
                 (fun _ => run clk wdt_reset fuel (S n)) m).
    unfold bind.
    destruct (loop_Result clk wdt_reset fuel m Hp) as (m' & Hl & Hm').
    rewrite Hl. subst m'. rewrite IH.
    + destruct m. reflexivity.
    + destruct m. exact Hp.
Qed.

Lemma result_idles_witness :
  run second_clock feed_fails 0 4 (power_up result_rtc) =
  Returns tt (set_done true (power_up result_rtc)).
Proof.
  apply (result_idles second_clock feed_fails 0 3 (power_up result_rtc)).
  reflexivity.
Defined.
